(** * The container entry point: process supervision and dispatch

    A shallow embedding of [bundles/runner/02_entrypoint.py]: the
    [ChildSubReaper] and [GraceFulShutdown] context managers, the three
    launchers [run_shell], [start_service] and [run_cron], and [dispatch].

    Python code is embedded as state passing over the interpreter state
    ([state]) with three outcomes per call: a value, an exception, or no
    return at all.  What the operating system answers (which files exist,
    whether a spawn succeeds, when a child exits) is read from a record of
    oracles ([OS]), so that every theorem quantifies over all of them. *)

From Stdlib Require Import ZArith String Ascii List Lia.
From stdpp Require Import base option list strings gmap.

Local Open Scope string_scope.
Local Open Scope list_scope.
Local Open Scope Z_scope.

(** ** Python values the script handles *)

(** The exceptions that the modelled calls can raise. *)
Inductive exn : Type :=
| OSError (errno : Z)
| AttributeError
| TypeError
| IndexError
| KeyError (key : string)
| ValueError
| CalledProcessError (returncode : Z).

(** The outcome of running a piece of Python: it returns, it raises, or it
    never comes back (a blocking call on a process that does not exit, or
    a loop that has exhausted its fuel). *)
Inductive result (A : Type) : Type :=
| Returned (a : A)
| Raised (e : exn)
| Diverges.
Arguments Returned {A} a.
Arguments Raised {A} e.
Arguments Diverges {A}.

(** A value of a template context or of a log record. *)
Inductive pyval : Type :=
| VStr (s : string)
| VInt (z : Z).

(** What [signal.getsignal] can return and what the handler table holds:
    the two special dispositions, [None] for a handler that was not
    installed from Python, the bound method
    [GraceFulShutdown.graceful_shutdown_handler] of the object at a heap
    address, or some other callable. *)
Inductive pyhandler : Type :=
| SIG_DFL
| SIG_IGN
| HNone
| GracefulHandler (self : nat)
| OtherCallable (id : nat).

(** [subprocess.Popen] object: the script only uses the process id. *)
Record Popen : Type := MkPopen { popen_pid : Z }.

(** Keyword arguments given to [subprocess.Popen]. *)
Record popen_kwargs : Type := MkKwargs {
  kw_cwd : option string;
  kw_env : option (gmap string string)
}.

Definition no_kwargs : popen_kwargs := MkKwargs None None.

(** Instance attributes of a [GraceFulShutdown] object: [self.args],
    [self.kwargs], [self.process] and [self.old_handler]. *)
Record gs_object : Type := MkGraceFulShutdown {
  gs_args : list string;
  gs_kwargs : popen_kwargs;
  gs_process : option Popen;
  gs_old_handler : pyhandler
}.

(** One answer of [os.wait()]: a reaped child, or a failure with an errno. *)
Inductive wait_outcome : Type :=
| Reaped (child : Z) (status : Z)
| WaitFails (errno : Z).

(** ** Observable calls *)

Inductive event : Type :=
| EPrctl (option_ : Z) (arg : Z)
| ELogInfo (fmt : string) (args : list pyval)
| EGetSignal (signum : Z)
| ESignal (signum : Z) (handler : pyhandler)
| EPopen (argv : list string) (kwargs : popen_kwargs)
| EPopenWait (child : Z)
| ETerminate (child : Z)
| EOsWait
| ETemplatize (template : string) (destination : string)
              (context : gmap string pyval).

(** ** The world outside the interpreter *)

(** Answers of the operating system and of the external collaborators.
    [os_spawn] is the process id a spawn of a command vector yields
    ([None]: the executable cannot be started); [child_exit] is the exit
    status a direct child ends with ([None]: it never exits);
    [render_error] is the failure of the renderer on a template, if any;
    [host_ip] is what [get_host_ip] yields; [py_int] is Python's [int] on
    a string; [expanduser] is [os.path.expanduser]. *)
Record OS : Type := MkOS {
  environ : gmap string string;
  expanduser : string -> string;
  path_exists : string -> bool;
  os_spawn : list string -> option Z;
  child_exit : Z -> option Z;
  render_error : string -> option exn;
  host_ip : result string;
  py_int : string -> option Z
}.

(** The mutable state: the process-wide subreaper flag, the Python-level
    signal-handler table, the heap of [GraceFulShutdown] objects, the
    answers [os.wait()] will give (once exhausted it fails with ECHILD),
    and the trace of calls made so far. *)
Record state : Type := MkState {
  subreaper : bool;
  handlers : Z -> pyhandler;
  heap : list gs_object;
  wait_queue : list wait_outcome;
  trace : list event
}.

Definition set_subreaper (b : bool) (s : state) : state :=
  MkState b (handlers s) (heap s) (wait_queue s) (trace s).
Definition set_handlers (h : Z -> pyhandler) (s : state) : state :=
  MkState (subreaper s) h (heap s) (wait_queue s) (trace s).
Definition set_heap (h : list gs_object) (s : state) : state :=
  MkState (subreaper s) (handlers s) h (wait_queue s) (trace s).
Definition set_wait_queue (q : list wait_outcome) (s : state) : state :=
  MkState (subreaper s) (handlers s) (heap s) q (trace s).
Definition emit (e : event) (s : state) : state :=
  MkState (subreaper s) (handlers s) (heap s) (wait_queue s) (trace s ++ [e]).

(** ** The monad of Python computations *)

Definition Py (A : Type) : Type := state -> result A * state.

Definition py_ret {A} (a : A) : Py A := fun s => (Returned a, s).

Definition py_bind {A B} (f : A -> Py B) (m : Py A) : Py B :=
  fun s =>
    match m s with
    | (Returned a, s1) => f a s1
    | (Raised e, s1) => (Raised e, s1)
    | (Diverges, s1) => (Diverges, s1)
    end.

#[global] Instance Py_ret : MRet Py := @py_ret.
#[global] Instance Py_bind : MBind Py := @py_bind.

Definition raise {A} (e : exn) : Py A := fun s => (Raised e, s).
Definition diverge {A} : Py A := fun s => (Diverges, s).
Definition record (e : event) : Py unit := fun s => (Returned tt, emit e s).
Definition modify (f : state -> state) : Py unit := fun s => (Returned tt, f s).

(** [try: body except <class>: handler], the class given as a predicate. *)
Definition try_except {A} (body : Py A) (catches : exn -> bool)
    (handler : exn -> Py A) : Py A :=
  fun s =>
    match body s with
    | (Raised e, s1) => if catches e then handler e s1 else (Raised e, s1)
    | other => other
    end.

(** The [with] statement: [__enter__] is called; if it raises, nothing
    else happens.  Otherwise the body runs and [__exit__] is called with
    the exception of the body, if any; a true result of [__exit__]
    suppresses that exception, and an exception of [__exit__] replaces it. *)
Definition with_ {A} (enter : Py A) (exit_ : option exn -> Py bool)
    (body : A -> Py unit) : Py unit :=
  fun s =>
    match enter s with
    | (Returned a, s1) =>
        match body a s1 with
        | (Returned _, s2) =>
            match exit_ None s2 with
            | (Returned _, s3) => (Returned tt, s3)
            | (Raised e', s3) => (Raised e', s3)
            | (Diverges, s3) => (Diverges, s3)
            end
        | (Raised e, s2) =>
            match exit_ (Some e) s2 with
            | (Returned true, s3) => (Returned tt, s3)
            | (Returned false, s3) => (Raised e, s3)
            | (Raised e', s3) => (Raised e', s3)
            | (Diverges, s3) => (Diverges, s3)
            end
        | (Diverges, s2) => (Diverges, s2)
        end
    | (Raised e, s1) => (Raised e, s1)
    | (Diverges, s1) => (Diverges, s1)
    end.

(** ** Library calls *)

Definition SCRIPT_DIR : string := "/scripts".
Definition BLUE_HOME : string := "/home/blue".

Definition starts_with_slash (s : string) : bool :=
  match s with
  | String c _ => Ascii.eqb c "/"%char
  | EmptyString => false
  end.

Fixpoint ends_with_slash (s : string) : bool :=
  match s with
  | EmptyString => false
  | String c EmptyString => Ascii.eqb c "/"%char
  | String _ rest => ends_with_slash rest
  end.

(** One step of [posixpath.join]: an absolute component replaces what
    came before it, any other one is appended after a separator. *)
Definition join2 (path b : string) : string :=
  if starts_with_slash b then b
  else if String.eqb path "" || ends_with_slash path then path +:+ b
  else path +:+ "/" +:+ b.

Definition os_path_join (a : string) (p : list string) : string :=
  fold_left join2 p a.

Definition DJANGO_SETTINGS_PATH : string := os_path_join BLUE_HOME ["app_config"].
Definition TEMPLATE_PATH : string := os_path_join BLUE_HOME ["templates"].
Definition VENV : string := os_path_join BLUE_HOME ["app"].

(** [' '.join(args)] *)
Definition join_spaces (args : list string) : string := String.concat " " args.

(** [logging.getLogger(__name__).info(fmt, *args)] *)
Definition logger_info (fmt : string) (args : list pyval) : Py unit :=
  record (ELogInfo fmt args).

Definition PR_SET_CHILD_SUBREAPER : Z := 36.

(** [libc.prctl(option, arg)]: option 36 sets the subreaper flag of the
    calling process when [arg] is non-zero and clears it otherwise. *)
Definition libc_prctl (option_ arg : Z) : Py Z :=
  fun s =>
    let s1 := emit (EPrctl option_ arg) s in
    (Returned 0,
     if option_ =? PR_SET_CHILD_SUBREAPER
     then set_subreaper (negb (arg =? 0)) s1 else s1).

Definition ECHILD : Z := 10.
Definition ENOENT : Z := 2.

(** [os.wait()]: the next answer of the operating system. *)
Definition os_wait : Py (Z * Z) :=
  fun s =>
    let s1 := emit EOsWait s in
    match wait_queue s with
    | [] => (Raised (OSError ECHILD), s1)
    | Reaped child status :: q => (Returned (child, status), set_wait_queue q s1)
    | WaitFails errno :: q => (Raised (OSError errno), set_wait_queue q s1)
    end.

Definition is_OSError (e : exn) : bool :=
  match e with OSError _ => true | _ => false end.

Definition is_CalledProcessError (e : exn) : bool :=
  match e with CalledProcessError _ => true | _ => false end.

Definition is_ValueError (e : exn) : bool :=
  match e with ValueError => true | _ => false end.

(** [signal.getsignal(signum)] *)
Definition signal_getsignal (signum : Z) : Py pyhandler :=
  fun s => (Returned (handlers s signum), emit (EGetSignal signum) s).

(** [signal.signal(signum, handler)]: [None] is not an acceptable handler;
    otherwise the handler is installed and the previous one returned. *)
Definition signal_signal (signum : Z) (handler : pyhandler) : Py pyhandler :=
  fun s =>
    let s1 := emit (ESignal signum handler) s in
    match handler with
    | HNone => (Raised TypeError, s1)
    | _ =>
        (Returned (handlers s signum),
         set_handlers (fun n => if n =? signum then handler else handlers s n) s1)
    end.

(** [subprocess.Popen(args, **kwargs)] *)
Definition subprocess_Popen (os : OS) (args : list string)
    (kwargs : popen_kwargs) : Py Popen :=
  fun s =>
    let s1 := emit (EPopen args kwargs) s in
    match os_spawn os args with
    | Some child => (Returned (MkPopen child), s1)
    | None => (Raised (OSError ENOENT), s1)
    end.

(** [process.wait()]: blocks until the child exits, returns its status. *)
Definition popen_wait (os : OS) (process : Popen) : Py Z :=
  fun s =>
    let s1 := emit (EPopenWait (popen_pid process)) s in
    match child_exit os (popen_pid process) with
    | Some status => (Returned status, s1)
    | None => (Diverges, s1)
    end.

(** [process.terminate()]: the call is recorded; what the kernel then does
    with the signal lies outside the interpreter. *)
Definition popen_terminate (process : Popen) : Py unit :=
  record (ETerminate (popen_pid process)).

(** [subprocess.check_call(args)]: run the command, wait for it, and raise
    [CalledProcessError] on a non-zero status. *)
Definition subprocess_check_call (os : OS) (args : list string) : Py Z :=
  process ← subprocess_Popen os args no_kwargs;
  retcode ← popen_wait os process;
  if retcode =? 0 then mret 0 else raise (CalledProcessError retcode).

(** ** [templatize] *)

Definition templatize (os : OS) (filename destination_path : string)
    (context : gmap string pyval) : Py unit :=
  let filename := os_path_join TEMPLATE_PATH [filename] in
  record (ETemplatize filename (expanduser os destination_path) context);;
  match render_error os filename with
  | Some e => raise e
  | None => mret tt
  end.

(** ** [ChildSubReaper] *)

Module ChildSubReaper.

Definition prctl_set_child_sub_reaper (activate : bool) : Py unit :=
  libc_prctl PR_SET_CHILD_SUBREAPER (if activate then 1 else 0);; mret tt.

(** The body of [while True]: [true] to go round again, [false] on
    [break]. *)
Definition wait_iteration : Py bool :=
  try_except
    ('(child, status) ← os_wait;
     logger_info "Process #%s terminated with status %s" [VInt child; VInt status];;
     mret true)
    is_OSError
    (fun _ => logger_info "All children were terminated." [];; mret false).

Fixpoint wait_loop (fuel : nat) : Py unit :=
  match fuel with
  | O => diverge
  | S n =>
      again ← wait_iteration;
      match again : bool with true => wait_loop n | false => mret tt end
  end.

(** [while True: ...]: every round consumes one answer of [os.wait()]
    and the exhausted queue makes it fail, so one more round than the
    queue is long always suffices. *)
Definition wait_for_children : Py unit :=
  fun s => wait_loop (S (length (wait_queue s))) s.

Definition __enter__ : Py unit :=
  prctl_set_child_sub_reaper true.

Definition __exit__ (exc : option exn) : Py bool :=
  wait_for_children;;
  prctl_set_child_sub_reaper false;;
  mret false.

End ChildSubReaper.

(** ** [GraceFulShutdown] *)

(** [seq[i]] on a Python list. *)
Definition getitem {A} (seq : list A) (i : nat) : Py A :=
  match seq !! i with
  | Some x => mret x
  | None => raise IndexError
  end.

Module GraceFulShutdown.

Definition SIGTERM : Z := 15.

(** Reading the attributes of [self]. *)
Definition attributes (self : nat) : Py gs_object :=
  fun s =>
    match heap s !! self with
    | Some o => (Returned o, s)
    | None => (Raised AttributeError, s)
    end.

(** [self.process = p] *)
Definition set_process (self : nat) (p : option Popen) : Py unit :=
  modify (fun s =>
    set_heap (alter (fun o => MkGraceFulShutdown (gs_args o) (gs_kwargs o) p
                                (gs_old_handler o)) self (heap s)) s).

(** [self.old_handler = h] *)
Definition set_old_handler (self : nat) (h : pyhandler) : Py unit :=
  modify (fun s =>
    set_heap (alter (fun o => MkGraceFulShutdown (gs_args o) (gs_kwargs o)
                                (gs_process o) h) self (heap s)) s).

(** The constructor allocates the object and returns its address. *)
Definition __init__ (args : list string) (kwargs : popen_kwargs) : Py nat :=
  fun s =>
    (Returned (length (heap s)),
     set_heap (heap s ++ [MkGraceFulShutdown args kwargs None HNone]) s).

(** [self.process.terminate()] fails with [AttributeError] when
    [self.process] is still [None]. *)
Definition graceful_shutdown_handler (self : nat) (signal_code : Z) : Py unit :=
  if signal_code =? SIGTERM then
    o ← attributes self;
    match gs_process o with
    | Some process => popen_terminate process
    | None => raise AttributeError
    end
  else mret tt.

(** Arrival of a signal at the interpreter: a handler installed from
    Python is called with the signal number.  The bound method above is
    the only Python handler the script installs; the other dispositions
    are acted on outside the interpreter state. *)
Definition deliver (signum : Z) : Py unit :=
  fun s =>
    match handlers s signum with
    | GracefulHandler self => graceful_shutdown_handler self signum s
    | _ => (Returned tt, s)
    end.

(** Signals arriving one after the other; a handler that raises
    interrupts the interrupted code with its exception. *)
Fixpoint deliveries (signums : list Z) : Py unit :=
  match signums with
  | [] => mret tt
  | signum :: rest => deliver signum;; deliveries rest
  end.

(** [__enter__], with the signals [early] arriving after the handler has
    been installed and before [Popen] has returned and [self.process]
    been assigned. *)
Definition enter_with (early : list Z) (os : OS) (self : nat) : Py Popen :=
  old ← signal_getsignal SIGTERM;
  set_old_handler self old;;
  signal_signal SIGTERM (GracefulHandler self);;
  deliveries early;;
  o ← attributes self;
  process ← subprocess_Popen os (gs_args o) (gs_kwargs o);
  set_process self (Some process);;
  mret process.

Definition __enter__ (os : OS) (self : nat) : Py Popen :=
  enter_with [] os self.

Definition __exit__ (self : nat) (exc : option exn) : Py bool :=
  o ← attributes self;
  signal_signal SIGTERM (gs_old_handler o);;
  mret false.

End GraceFulShutdown.

(** ** The rest of the script *)

(** [get_host_ip]: the call of [ip route] and the search in its output are
    behind the oracle. *)
Definition get_host_ip (os : OS) : Py string :=
  fun s => (host_ip os, s).

(** [os.environ[key]] *)
Definition environ_getitem (os : OS) (key : string) : Py string :=
  match environ os !! key with
  | Some v => mret v
  | None => raise (KeyError key)
  end.

(** [s.split('.')[0]] *)
Fixpoint before_dot (s : string) : string :=
  match s with
  | EmptyString => EmptyString
  | String c rest => if Ascii.eqb c "."%char then EmptyString else String c (before_dot rest)
  end.

Definition upper_ascii (c : ascii) : ascii :=
  let n := nat_of_ascii c in
  if (97 <=? n)%nat && (n <=? 122)%nat then ascii_of_nat (n - 32) else c.

(** [s.upper()] *)
Fixpoint upper (s : string) : string :=
  match s with
  | EmptyString => EmptyString
  | String c rest => String (upper_ascii c) (upper rest)
  end.

Definition execute (os : OS) (args : list string) : Py unit :=
  logger_info "-> running %s" [VStr (join_spaces args)];;
  try_except
    (subprocess_check_call os args;; mret tt)
    is_CalledProcessError
    (fun _ => mret tt).

Definition get_context (os : OS) : Py (gmap string pyval) :=
  python_version ← environ_getitem os "PYTHON_VERSION";
  let python_major := before_dot python_version in
  let uwsgi_plugin_name := "python" in
  uwsgi_workers ←
    try_except
      (match environ os !! "UWSGI_WORKERS" with
       | None => mret 10
       | Some v => match py_int os v with
                   | Some n => mret n
                   | None => raise ValueError
                   end
       end)
      is_ValueError
      (fun _ => mret 10);
  host ← get_host_ip os;
  let rsyslog_host := default host (environ os !! "RSYSLOG_HOST") in
  let uwsgi_plugin_name :=
    if String.eqb python_major "3" then uwsgi_plugin_name +:+ python_major
    else uwsgi_plugin_name in
  python_version ← environ_getitem os "PYTHON_VERSION";
  project_name ← environ_getitem os "PROJECT_NAME";
  mret (list_to_map [
    ("django_config_path", VStr DJANGO_SETTINGS_PATH);
    ("python_version", VStr python_version);
    ("project_name", VStr project_name);
    ("project_name_upper", VStr (upper project_name));
    ("uwsgi_plugin_name", VStr uwsgi_plugin_name);
    ("uwsgi_workers", VInt uwsgi_workers);
    ("rsyslog_host", VStr rsyslog_host);
    ("venv", VStr VENV);
    ("http_proxy", VStr (default "" (environ os !! "http_proxy")));
    ("https_proxy", VStr (default "" (environ os !! "https_proxy")));
    ("no_proxy", VStr (default "" (environ os !! "no_proxy")))
  ]).

Definition run_shell (os : OS) (args : list string) : Py unit :=
  arg0 ← getitem args 0;
  let script_path := os_path_join SCRIPT_DIR [arg0] in
  let args := if path_exists os script_path
              then <[0%nat := script_path]> args else args in
  logger_info "running %s" [VStr (join_spaces args)];;
  process ← subprocess_Popen os args (MkKwargs (Some SCRIPT_DIR) None);
  popen_wait os process;;
  mret tt.

Definition start_service (os : OS) (command : string) (args : list string)
    : Py unit :=
  context ← get_context os;
  service ← getitem args 0;
  let context := <["service" := VStr service]> context in
  templatize os "uwsgi.ini" (os_path_join "~" ["etc"; "uwsgi.ini"]) context;;
  templatize os "nginx.conf" (os_path_join "~" ["etc"; "nginx.conf"]) context;;
  let supervisord_config :=
    expanduser os (os_path_join "~" ["etc"; "supervisord.conf"]) in
  templatize os "supervisord.conf" supervisord_config context;;
  execute os ["supervisord"; "-c"; supervisord_config].

Definition cron_daemon_cmd : list string := ["sudo"; "cron"; "-f"].

Definition cron_daemon_env (os : OS) : gmap string string :=
  {[ "TZ" := default "UTC" (environ os !! "GROCKER_CRON_TZ") ]}.

Definition run_cron (os : OS) (command : string) (args : list string)
    : Py unit :=
  with_ ChildSubReaper.__enter__ ChildSubReaper.__exit__ (fun _ =>
    logger_info "-> running cron daemon..." [];;
    self ← GraceFulShutdown.__init__ cron_daemon_cmd
             (MkKwargs None (Some (cron_daemon_env os)));
    with_ (GraceFulShutdown.__enter__ os self) (GraceFulShutdown.__exit__ self)
      (fun p => popen_wait os p;; mret tt)).

(** The functions [service_mapping] maps to, and the default. *)
Inductive launcher : Type := Run_cron | Start_service | Run_shell.

Definition service_mapping : gmap string launcher :=
  {[ "cron" := Run_cron; "start" := Start_service ]}.

(** [fn] applied to the unpacked [args]: [run_cron] and [start_service] bind the first element to
    [command] and the others to the starred parameter; [run_shell] takes
    them all. *)
Definition call (os : OS) (fn : launcher) (args : list string) : Py unit :=
  match fn, args with
  | Run_shell, _ => run_shell os args
  | Run_cron, command :: rest => run_cron os command rest
  | Start_service, command :: rest => start_service os command rest
  | _, [] => raise TypeError
  end.

Definition dispatch (os : OS) (args : list string) : Py unit :=
  let args := match args with [] => ["/bin/bash"] | _ => args end in
  arg0 ← getitem args 0;
  let fn := default Run_shell (service_mapping !! arg0) in
  call os fn args.

(** The exit status of the interpreter once [dispatch], the last statement
    of [main], is over: 0 after a normal return, 1 after an uncaught
    exception, none while it has not come back. *)
Definition exit_status (r : result unit) : option Z :=
  match r with
  | Returned _ => Some 0
  | Raised _ => Some 1
  | Diverges => None
  end.

(** ** Vocabulary of the statements *)

(** The calls one run of the drain loop makes on a queue of [os.wait()]
    answers: a wait and a log line per reaped child, then the failing wait
    and the closing log line. *)
Fixpoint drain_events (q : list wait_outcome) : list event :=
  match q with
  | Reaped child status :: q' =>
      EOsWait
      :: ELogInfo "Process #%s terminated with status %s" [VInt child; VInt status]
      :: drain_events q'
  | _ => [EOsWait; ELogInfo "All children were terminated." []]
  end.

(** The answers the drain loop leaves unconsumed. *)
Fixpoint drain_rest (q : list wait_outcome) : list wait_outcome :=
  match q with
  | Reaped _ _ :: q' => drain_rest q'
  | WaitFails _ :: q' => q'
  | [] => []
  end.

(** The state the drain loop leaves behind. *)
Definition drained (s : state) : state :=
  MkState (subreaper s) (handlers s) (heap s) (drain_rest (wait_queue s))
          (trace s ++ drain_events (wait_queue s)).

(** A queue of children that all get reaped. *)
Definition reaped (children : list (Z * Z)) : list wait_outcome :=
  map (fun c => Reaped c.1 c.2) children.

(** Number of [terminate()] calls made on a child in a trace. *)
Fixpoint terminations (child : Z) (tr : list event) : nat :=
  match tr with
  | [] => O
  | ETerminate c :: rest =>
      if c =? child then S (terminations child rest) else terminations child rest
  | _ :: rest => terminations child rest
  end.

(** What can happen between [__enter__] and [__exit__] of a
    [GraceFulShutdown] scope: a signal arrives, or the body waits for the
    child. *)
Inductive scope_event : Type :=
| SignalArrives (signum : Z)
| WaitsForChild.

Definition scope_step (os : OS) (self : nat) (ev : scope_event) : Py unit :=
  match ev with
  | SignalArrives signum => GraceFulShutdown.deliver signum
  | WaitsForChild =>
      o ← GraceFulShutdown.attributes self;
      match gs_process o with
      | Some process => popen_wait os process;; mret tt
      | None => raise AttributeError
      end
  end.

(** The state after a series of such events, each one taking place
    whatever the one before it yielded. *)
Fixpoint scope_run (os : OS) (self : nat) (evs : list scope_event)
    (s : state) : state :=
  match evs with
  | [] => s
  | ev :: rest => scope_run os self rest (scope_step os self ev s).2
  end.

(** A sample world: an empty environment, no file in the scripts directory,
    every spawn yields process 42, which exits with status 3. *)
Definition sample_os : OS :=
  MkOS ∅ (fun p => p) (fun _ => false) (fun _ => Some 42) (fun _ => Some 3)
       (fun _ => None) (Returned "172.17.0.1") (fun _ => None).


(** A web-service world in which process 42 exits with status 0. *)
Definition sample_os_web : OS :=
  MkOS {[ "PYTHON_VERSION" := "3.5"; "PROJECT_NAME" := "shop" ]}
       (fun p => p) (fun _ => false) (fun _ => Some 42) (fun _ => Some 0)
       (fun _ => None) (Returned "172.17.0.1") (fun _ => None).


(** A fresh interpreter: default dispositions, no object, two orphans that
    the operating system will hand over. *)
Definition sample_state : state :=
  MkState false (fun _ => SIG_DFL) [] [Reaped 7 0; Reaped 8 256] [].

(** The calls of [run_cron] up to the spawn, and those of the closing
    subreaper scope. *)
Definition cron_entering (os : OS) (self : nat) : list event :=
  [EPrctl PR_SET_CHILD_SUBREAPER 1;
   ELogInfo "-> running cron daemon..." [];
   EGetSignal GraceFulShutdown.SIGTERM;
   ESignal GraceFulShutdown.SIGTERM (GracefulHandler self);
   EPopen cron_daemon_cmd (MkKwargs None (Some (cron_daemon_env os)))].

Definition cron_leaving (s : state) : list event :=
  drain_events (wait_queue s) ++ [EPrctl PR_SET_CHILD_SUBREAPER 0].

(** The command vector [run_shell] spawns for a first argument and the
    arguments after it. *)
Definition resolved (os : OS) (arg0 : string) (rest : list string)
    : list string :=
  (if path_exists os (os_path_join SCRIPT_DIR [arg0])
   then os_path_join SCRIPT_DIR [arg0] else arg0) :: rest.

(** The launcher a run of [dispatch] hands the arguments to. *)
Definition selected (args : list string) : launcher :=
  match args with
  | [] => Run_shell
  | arg0 :: _ =>
      if String.eqb arg0 "cron" then Run_cron
      else if String.eqb arg0 "start" then Start_service
      else Run_shell
  end.

(** The calls of [start_service] up to the spawn of the supervisor. *)
Definition service_starting (os : OS) (context : gmap string pyval)
    : list event :=
  let supervisord_config :=
    expanduser os (os_path_join "~" ["etc"; "supervisord.conf"]) in
  [ETemplatize (os_path_join TEMPLATE_PATH ["uwsgi.ini"])
     (expanduser os (os_path_join "~" ["etc"; "uwsgi.ini"])) context;
   ETemplatize (os_path_join TEMPLATE_PATH ["nginx.conf"])
     (expanduser os (os_path_join "~" ["etc"; "nginx.conf"])) context;
   ETemplatize (os_path_join TEMPLATE_PATH ["supervisord.conf"])
     (expanduser os supervisord_config) context;
   ELogInfo "-> running %s"
     [VStr (join_spaces ["supervisord"; "-c"; supervisord_config])];
   EPopen ["supervisord"; "-c"; supervisord_config] no_kwargs].

(** The renderer fails on none of the three templates. *)
Definition renders (os : OS) : Prop :=
  render_error os (os_path_join TEMPLATE_PATH ["uwsgi.ini"]) = None
  ∧ render_error os (os_path_join TEMPLATE_PATH ["nginx.conf"]) = None
  ∧ render_error os (os_path_join TEMPLATE_PATH ["supervisord.conf"]) = None.

(** The context [get_context] builds in the sample web-service world. *)
Definition sample_context : gmap string pyval :=
  list_to_map [
    ("django_config_path", VStr "/home/blue/app_config");
    ("python_version", VStr "3.5");
    ("project_name", VStr "shop");
    ("project_name_upper", VStr "SHOP");
    ("uwsgi_plugin_name", VStr "python3");
    ("uwsgi_workers", VInt 10);
    ("rsyslog_host", VStr "172.17.0.1");
    ("venv", VStr "/home/blue/app");
    ("http_proxy", VStr "");
    ("https_proxy", VStr "");
    ("no_proxy", VStr "")
  ].

(** ** [get_host_ip], on the output of the command *)

(** A white-space character of a byte string: space, tab, line feed,
    vertical tab, form feed, carriage return. *)
Definition is_space (c : ascii) : bool :=
  let n := nat_of_ascii c in
  (n =? 32)%nat || ((9 <=? n)%nat && (n <=? 13)%nat).

(** The class [[0-9.]]. *)
Definition is_ip_char (c : ascii) : bool :=
  let n := nat_of_ascii c in
  ((48 <=? n)%nat && (n <=? 57)%nat) || (n =? 46)%nat.

Fixpoint take_while (p : ascii -> bool) (s : string) : string :=
  match s with
  | EmptyString => EmptyString
  | String c rest => if p c then String c (take_while p rest) else EmptyString
  end.

Fixpoint drop_while (p : ascii -> bool) (s : string) : string :=
  match s with
  | EmptyString => EmptyString
  | String c rest => if p c then drop_while p rest else s
  end.

(** The pattern of [get_host_ip], the letters via, a white space, one or
    more characters of the class as the group, a white space, tried at
    the start of a string; the result is the group.  The repetition takes as many characters of the
    class as there are, and giving some back cannot help, since the
    character given back is of the class and so is no white space. *)
Definition match_via (s : string) : option string :=
  match s with
  | String "v" (String "i" (String "a" (String w rest))) =>
      if is_space w then
        match take_while is_ip_char rest, drop_while is_ip_char rest with
        | String c group, String w' _ =>
            if is_space w' then Some (String c group) else None
        | _, _ => None
        end
      else None
  | _ => None
  end.

(** [re.search]: the first position from the left where the pattern
    matches. *)
Fixpoint search_via (s : string) : option string :=
  match match_via s with
  | Some group => Some group
  | None =>
      match s with
      | EmptyString => None
      | String _ rest => search_via rest
      end
  end.

(** [get_host_ip], the outcome of [subprocess.check_output] being given:
    [matched.groups()] on a failed search is an [AttributeError]. *)
Definition get_host_ip_on (check_output : result string) : result string :=
  match check_output with
  | Returned output =>
      match search_via output with
      | Some group => Returned group
      | None => Raised AttributeError
      end
  | Raised e => Raised e
  | Diverges => Diverges
  end.

(** ** [setup_environment], on the lines of the file *)

(** [s.lstrip()] and [s.rstrip()] *)
Definition lstrip (s : string) : string := drop_while is_space s.

Fixpoint rstrip (s : string) : string :=
  match s with
  | EmptyString => EmptyString
  | String c rest =>
      match rstrip rest with
      | EmptyString => if is_space c then EmptyString else String c EmptyString
      | kept => String c kept
      end
  end.

Definition strip (s : string) : string := rstrip (lstrip s).

(** The class [[a-zA-Z_1-9]]: the digit zero is not in it. *)
Definition is_key_char (c : ascii) : bool :=
  let n := nat_of_ascii c in
  ((97 <=? n)%nat && (n <=? 122)%nat)
  || ((65 <=? n)%nat && (n <=? 90)%nat)
  || (n =? 95)%nat
  || ((49 <=? n)%nat && (n <=? 57)%nat).

(** What a dot of the pattern matches: any character but the line feed. *)
Definition is_not_newline (c : ascii) : bool :=
  negb (nat_of_ascii c =? 10)%nat.

(** [regex.search(line)] for the pattern of [setup_environment], a run of
    the class, an equals sign, a run of any characters, the end: the
    pattern is anchored at the start, the first group is the longest run
    of the class (the equals sign is not of the class), the second group
    runs up to the first line feed, and the end is accepted there when
    nothing or only that line feed follows. *)
Definition match_env_line (line : string) : option (string * string) :=
  match drop_while is_key_char line with
  | String "=" rest =>
      match drop_while is_not_newline rest with
      | EmptyString | String _ EmptyString =>
          Some (take_while is_key_char line, take_while is_not_newline rest)
      | _ => None
      end
  | _ => None
  end.

(** The loop over [fh.readlines()]: the environment and the messages
    logged so far are threaded through. *)
Fixpoint export_lines (lines : list string) (env : gmap string string)
    (log : list string) : gmap string string * list string :=
  match lines with
  | [] => (env, log)
  | line :: rest =>
      if String.eqb (strip line) "" then export_lines rest env log
      else
        match match_env_line line with
        | Some (key, value) => export_lines rest (<[key := value]> env) log
        | None =>
            export_lines rest env
              (log ++ ["> line '" +:+ line +:+ "' is not an environment variable"])
        end
  end.

(** [setup_environment], the lines of [ENV_CONFIG] and the environment of
    the process being given; the result comes with the environment and
    the log it leaves.  The three keys of the final update differ from
    one another, whatever the project name. *)
Definition setup_environment (lines : list string) (env : gmap string string)
    : result unit * (gmap string string * list string) :=
  let '(env, log) := export_lines lines env [] in
  match env !! "PATH" with
  | None => (Raised (KeyError "PATH"), (env, log))
  | Some path =>
      match env !! "PROJECT_NAME" with
      | None => (Raised (KeyError "PROJECT_NAME"), (env, log))
      | Some project =>
          (Returned tt,
           (<[upper project +:+ "_CONFIG" := os_path_join DJANGO_SETTINGS_PATH ["*.ini"]]>
              (<["DJANGO_SETTINGS_MODULE" := project +:+ ".settings"]>
                 (<["PATH" := os_path_join VENV ["bin"] +:+ ":" +:+ path]> env)),
            log))
      end
  end.

(** ** [create_directory], [setup_ssh] and [setup_app] *)

Definition CONFIG_MOUNT_POINT : string := "/config".
Definition SSH_CONFIG_DIR : string := "ssh-dir".
Definition LOG_DIR : string := os_path_join BLUE_HOME ["logs"].
Definition RUN_DIR : string := os_path_join BLUE_HOME ["run"].

(** The calls these functions make on the file system, on the logger and
    on [templatize]. *)
Inductive fs_call : Type :=
| FsExists (path : string)
| FsMakedirs (path : string)
| FsChmod (path : string) (mode : Z)
| FsListdir (path : string)
| FsIsfile (path : string)
| FsCopy (src dst : string)
| FsInfo (fmt : string) (args : list pyval)
| FsWarning (msg : string)
| FsTemplatize (filename destination_path : string)
               (context : gmap string pyval).

(** The file system as these functions find it.  What they ask about
    (the mounted configuration) is not what they write to (the home
    directory), so that the answers do not change during a run.
    [fs_error] is the exception a call raises, if any. *)
Record FS : Type := MkFS {
  fs_exists : string -> bool;
  fs_isfile : string -> bool;
  fs_listdir : string -> list string;
  fs_error : fs_call -> option exn
}.

(** Computations that record their calls. *)
Definition Setup (A : Type) : Type := list fs_call -> result A * list fs_call.

Definition setup_ret {A} (a : A) : Setup A := fun calls => (Returned a, calls).

Definition setup_bind {A B} (f : A -> Setup B) (m : Setup A) : Setup B :=
  fun calls =>
    match m calls with
    | (Returned a, calls1) => f a calls1
    | (Raised e, calls1) => (Raised e, calls1)
    | (Diverges, calls1) => (Diverges, calls1)
    end.

#[global] Instance Setup_ret : MRet Setup := @setup_ret.
#[global] Instance Setup_bind : MBind Setup := @setup_bind.

(** A call that may raise. *)
Definition fs_do (fs : FS) (c : fs_call) : Setup unit :=
  fun calls =>
    match fs_error fs c with
    | Some e => (Raised e, calls ++ [c])
    | None => (Returned tt, calls ++ [c])
    end.

(** [os.path.exists] and [os.path.isfile] answer and never raise. *)
Definition os_path_exists (fs : FS) (path : string) : Setup bool :=
  fun calls => (Returned (fs_exists fs path), calls ++ [FsExists path]).

Definition os_path_isfile (fs : FS) (path : string) : Setup bool :=
  fun calls => (Returned (fs_isfile fs path), calls ++ [FsIsfile path]).

Definition os_listdir (fs : FS) (path : string) : Setup (list string) :=
  fun calls =>
    match fs_error fs (FsListdir path) with
    | Some e => (Raised e, calls ++ [FsListdir path])
    | None => (Returned (fs_listdir fs path), calls ++ [FsListdir path])
    end.

(** [for x in xs: body(x)] *)
Fixpoint for_each {A} (xs : list A) (body : A -> Setup unit) : Setup unit :=
  match xs with
  | [] => mret tt
  | x :: rest => body x;; for_each rest body
  end.

Definition create_directory (fs : FS) (path : string) : Setup unit :=
  found ← os_path_exists fs path;
  match found : bool with
  | false => fs_do fs (FsMakedirs path)
  | true => fs_do fs (FsInfo "%s already exists !" [VStr path])
  end.

Definition setup_ssh (fs : FS) : Setup unit :=
  let dst_ssh_dir := os_path_join BLUE_HOME [".ssh"] in
  let src_ssh_dir := os_path_join CONFIG_MOUNT_POINT [SSH_CONFIG_DIR] in
  create_directory fs dst_ssh_dir;;
  fs_do fs (FsChmod dst_ssh_dir 448);;
  found ← os_path_exists fs src_ssh_dir;
  match found : bool with
  | true =>
      names ← os_listdir fs src_ssh_dir;
      for_each names (fun name =>
        let src := os_path_join src_ssh_dir [name] in
        let dst := os_path_join dst_ssh_dir [name] in
        regular ← os_path_isfile fs src;
        match regular : bool with
        | true => fs_do fs (FsCopy src dst);; fs_do fs (FsChmod dst 384)
        | false => mret tt
        end)
  | false => mret tt
  end.

(** [setup_app], the outcome of [get_context()] being given. *)
Definition setup_app (fs : FS) (context : result (gmap string pyval))
    : Setup unit :=
  for_each [DJANGO_SETTINGS_PATH; LOG_DIR; RUN_DIR] (create_directory fs);;
  context ← (fun calls => (context, calls));
  fs_do fs (FsTemplatize "settings.ini"
              (os_path_join DJANGO_SETTINGS_PATH ["50_base_settings.ini"])
              context);;
  let si_mounted_config_dir := os_path_join CONFIG_MOUNT_POINT ["app"] in
  found ← os_path_exists fs si_mounted_config_dir;
  match found : bool with
  | false => fs_do fs (FsWarning "No 'app' directory found")
  | true =>
      filenames ← os_listdir fs si_mounted_config_dir;
      for_each filenames (fun filename =>
        fs_do fs (FsCopy (os_path_join si_mounted_config_dir [filename])
                         (os_path_join DJANGO_SETTINGS_PATH [filename])))
  end.

(** ** Vocabulary of the further statements *)

(** Every character of a string passes a test. *)
Fixpoint all_chars (p : ascii -> bool) (s : string) : bool :=
  match s with
  | EmptyString => true
  | String c rest => p c && all_chars p rest
  end.

Definition is_not_v (c : ascii) : bool := negb (Ascii.eqb c "v").

Definition newline : string := String (ascii_of_nat 10) EmptyString.

(** The calls of [create_directory] when nothing fails. *)
Definition create_calls (fs : FS) (path : string) : list fs_call :=
  [FsExists path;
   if fs_exists fs path then FsInfo "%s already exists !" [VStr path]
   else FsMakedirs path].

(** The calls of [setup_ssh] when nothing fails. *)
Definition ssh_calls (fs : FS) : list fs_call :=
  let dst_ssh_dir := os_path_join BLUE_HOME [".ssh"] in
  let src_ssh_dir := os_path_join CONFIG_MOUNT_POINT [SSH_CONFIG_DIR] in
  create_calls fs dst_ssh_dir
  ++ [FsChmod dst_ssh_dir 448; FsExists src_ssh_dir]
  ++ (if fs_exists fs src_ssh_dir then
        FsListdir src_ssh_dir
        :: flat_map (fun name =>
             FsIsfile (os_path_join src_ssh_dir [name])
             :: (if fs_isfile fs (os_path_join src_ssh_dir [name]) then
                   [FsCopy (os_path_join src_ssh_dir [name])
                           (os_path_join dst_ssh_dir [name]);
                    FsChmod (os_path_join dst_ssh_dir [name]) 384]
                 else []))
             (fs_listdir fs src_ssh_dir)
      else []).

(** The calls of [setup_app] when nothing fails and the context is there. *)
Definition app_calls (fs : FS) (context : gmap string pyval) : list fs_call :=
  let si_mounted_config_dir := os_path_join CONFIG_MOUNT_POINT ["app"] in
  flat_map (create_calls fs) [DJANGO_SETTINGS_PATH; LOG_DIR; RUN_DIR]
  ++ [FsTemplatize "settings.ini"
        (os_path_join DJANGO_SETTINGS_PATH ["50_base_settings.ini"]) context;
      FsExists si_mounted_config_dir]
  ++ (if fs_exists fs si_mounted_config_dir then
        FsListdir si_mounted_config_dir
        :: map (fun filename =>
             FsCopy (os_path_join si_mounted_config_dir [filename])
                    (os_path_join DJANGO_SETTINGS_PATH [filename]))
             (fs_listdir fs si_mounted_config_dir)
      else [FsWarning "No 'app' directory found"]).

(** The last character of a string. *)
Fixpoint last_char (s : string) : option ascii :=
  match s with
  | EmptyString => None
  | String c EmptyString => Some c
  | String _ rest => last_char rest
  end.

(** The message logged for a line that is no assignment. *)
Definition not_a_variable (line : string) : string :=
  "> line '" +:+ line +:+ "' is not an environment variable".

(** Every copy in a list of calls is followed at once by the [chmod] of
    its destination to mode 0600. *)
Fixpoint chmod_after_copy (calls : list fs_call) : bool :=
  match calls with
  | [] => true
  | FsCopy _ dst :: rest =>
      match rest with
      | FsChmod path mode :: _ =>
          String.eqb path dst && (mode =? 384) && chmod_after_copy rest
      | _ => false
      end
  | _ :: rest => chmod_after_copy rest
  end.

(** A computation follows a list of calls when, from any calls made
    before, it makes an initial part of the list and then stops, the whole
    list if it returns; and it does come back. *)
Definition follows (m : Setup unit) (expected : list fs_call) : Prop :=
  ∀ calls, ∃ made,
    (m calls).2 = calls ++ made
    ∧ made `prefix_of` expected
    ∧ ((m calls).1 = Returned tt → made = expected)
    ∧ (m calls).1 ≠ Diverges.

(** A computation that returns from any calls made before. *)
Definition returns (m : Setup unit) : Prop :=
  ∀ calls, (m calls).1 = Returned tt.

(** No call on the file system fails. *)
Definition reliable (fs : FS) : Prop := ∀ c, fs_error fs c = None.

(** A file system in which nothing fails: the mounted directory holds a
    key, a directory and a host list. *)
Definition sample_fs : FS :=
  MkFS (fun path => String.eqb path "/config/ssh-dir"
                    || String.eqb path "/config/app")
       (fun path => negb (String.eqb path "/config/ssh-dir/sub"))
       (fun path => if String.eqb path "/config/app"
                    then ["10_site.ini"; "50_base_settings.ini"]
                    else ["id_rsa"; "sub"; "known_hosts"])
       (fun _ => None).

(** ** Proofs *)

Ltac py_unfold :=
  unfold mbind, mret, Py_bind, Py_ret, py_bind, py_ret, raise, diverge,
    record, modify, try_except, logger_info in *.

Lemma state_eta (s : state) :
  MkState (subreaper s) (handlers s) (heap s) (wait_queue s) (trace s) = s.
Proof. by destruct s. Qed.

(** *** The drain loop *)

Lemma wait_loop_drains (q : list wait_outcome) :
  ∀ (s : state) (fuel : nat),
    wait_queue s = q → (length q < fuel)%nat →
    ChildSubReaper.wait_loop fuel s = (Returned tt, drained s).
Proof.
  induction q as [|o q IH]; intros s fuel Hq Hfuel.
  - destruct fuel as [|fuel]; [simpl in Hfuel; lia|].
    unfold drained. simpl. unfold ChildSubReaper.wait_iteration, os_wait.
    py_unfold. rewrite Hq. simpl. unfold emit. simpl.
    rewrite Hq. by rewrite <- app_assoc.
  - destruct fuel as [|fuel]; [simpl in Hfuel; lia|].
    simpl in Hfuel.
    destruct o as [child status|errno].
    + simpl. unfold ChildSubReaper.wait_iteration, os_wait at 1.
      py_unfold. rewrite Hq. simpl.
      rewrite (IH _ fuel); [|done|lia].
      unfold drained. simpl. rewrite Hq. simpl.
      by rewrite <- !app_assoc.
    + unfold drained. simpl. unfold ChildSubReaper.wait_iteration, os_wait.
      py_unfold. rewrite Hq. simpl. unfold emit. simpl.
      by rewrite <- app_assoc.
Qed.

Lemma wait_for_children_drains (s : state) :
  ChildSubReaper.wait_for_children s = (Returned tt, drained s).
Proof.
  unfold ChildSubReaper.wait_for_children.
  apply (wait_loop_drains (wait_queue s)); [done|lia].
Qed.

Lemma exit_drains (exc : option exn) (s : state) :
  ChildSubReaper.__exit__ exc s =
  (Returned false,
   set_subreaper false (emit (EPrctl PR_SET_CHILD_SUBREAPER 0) (drained s))).
Proof.
  unfold ChildSubReaper.__exit__, ChildSubReaper.prctl_set_child_sub_reaper.
  py_unfold. rewrite wait_for_children_drains. reflexivity.
Qed.

Lemma drain_events_reaped (children : list (Z * Z)) (q : list wait_outcome) :
  drain_events (reaped children ++ q) =
  flat_map (fun c => [EOsWait;
                      ELogInfo "Process #%s terminated with status %s"
                        [VInt c.1; VInt c.2]]) children
  ++ drain_events q.
Proof.
  induction children as [|c children IH]; simpl; [done|].
  by rewrite IH.
Qed.

(** C4: [ChildSubReaper.__exit__] always returns; its calls are, for each
    child the operating system hands over, one [os.wait()] and one log
    line with the process id and the status, then the failing [os.wait()]
    and the closing log line, and only then [prctl] with argument 0,
    which leaves the subreaper flag unset.  A wait failing with any errno
    ends the loop with the same calls as the failure for lack of
    children, and the flag is unset also when there was no child to
    reap. *)
Theorem subreaper_exit_drains_then_unsets :
  (∀ (exc : option exn) (s : state),
     ∃ s', ChildSubReaper.__exit__ exc s = (Returned false, s')
       ∧ trace s' = trace s ++ drain_events (wait_queue s)
                      ++ [EPrctl PR_SET_CHILD_SUBREAPER 0]
       ∧ subreaper s' = false
       ∧ handlers s' = handlers s)
  ∧ (∀ (children : list (Z * Z)) (errno : Z) (rest : list wait_outcome),
       drain_events (reaped children ++ WaitFails errno :: rest)
       = drain_events (reaped children)
       ∧ drain_events (reaped children)
         = flat_map (fun c => [EOsWait;
                               ELogInfo "Process #%s terminated with status %s"
                                 [VInt c.1; VInt c.2]]) children
           ++ [EOsWait; ELogInfo "All children were terminated." []])
  ∧ (∀ (exc : option exn) (s : state),
       let s' := (ChildSubReaper.__exit__ exc (set_wait_queue [] s)).2 in
       subreaper s' = false
       ∧ trace s' = trace s ++ [EOsWait;
                                ELogInfo "All children were terminated." [];
                                EPrctl PR_SET_CHILD_SUBREAPER 0]).
Proof.
  split; [|split].
  - intros exc s. eexists. split; [apply exit_drains|].
    simpl. by rewrite <- app_assoc.
  - intros children errno rest.
    pose proof (drain_events_reaped children []) as Hnil.
    rewrite app_nil_r in Hnil.
    rewrite drain_events_reaped, Hnil. done.
  - intros exc s. rewrite exit_drains. simpl.
    split; [done|]. by rewrite <- app_assoc.
Qed.

(** *** The signal-forwarding scope *)

Lemma handler_frame (self : nat) (signum : Z) (s : state) :
  handlers (GraceFulShutdown.graceful_shutdown_handler self signum s).2 = handlers s
  ∧ heap (GraceFulShutdown.graceful_shutdown_handler self signum s).2 = heap s.
Proof.
  unfold GraceFulShutdown.graceful_shutdown_handler, GraceFulShutdown.attributes,
    popen_terminate.
  destruct (signum =? GraceFulShutdown.SIGTERM); py_unfold; [|done].
  destruct (heap s !! self) as [o|]; [|done].
  by destruct (gs_process o).
Qed.

Lemma deliver_frame (signum : Z) (s : state) :
  handlers (GraceFulShutdown.deliver signum s).2 = handlers s
  ∧ heap (GraceFulShutdown.deliver signum s).2 = heap s.
Proof.
  unfold GraceFulShutdown.deliver.
  destruct (handlers s signum); try done. apply handler_frame.
Qed.

Lemma deliveries_frame (signums : list Z) :
  ∀ s : state,
    handlers (GraceFulShutdown.deliveries signums s).2 = handlers s
    ∧ heap (GraceFulShutdown.deliveries signums s).2 = heap s.
Proof.
  induction signums as [|signum rest IH]; intros s; [done|].
  simpl. py_unfold.
  destruct (deliver_frame signum s) as [Hh Hp].
  destruct (GraceFulShutdown.deliver signum s) as [[[]| |] s1]; simpl in *;
    [|done|done].
  destruct (IH s1) as [Hh' Hp']. by rewrite Hh', Hp'.
Qed.

Lemma scope_step_frame (os : OS) (self : nat) (ev : scope_event) (s : state) :
  handlers (scope_step os self ev s).2 = handlers s
  ∧ heap (scope_step os self ev s).2 = heap s.
Proof.
  destruct ev as [signum|]; simpl; [apply deliver_frame|].
  unfold GraceFulShutdown.attributes, popen_wait. py_unfold.
  destruct (heap s !! self) as [o|]; [|done].
  destruct (gs_process o) as [p|]; [|done].
  by destruct (child_exit os (popen_pid p)).
Qed.

Lemma scope_run_frame (os : OS) (self : nat) (evs : list scope_event) :
  ∀ s : state,
    handlers (scope_run os self evs s) = handlers s
    ∧ heap (scope_run os self evs s) = heap s.
Proof.
  induction evs as [|ev rest IH]; intros s; [done|].
  simpl. destruct (IH (scope_step os self ev s).2) as [Hh Hp].
  destruct (scope_step_frame os self ev s) as [Hh' Hp'].
  by rewrite Hh, Hp, Hh', Hp'.
Qed.

Lemma init_allocates (args : list string) (kwargs : popen_kwargs) (s : state) :
  heap (GraceFulShutdown.__init__ args kwargs s).2 !! length (heap s)
  = Some (MkGraceFulShutdown args kwargs None HNone)
  ∧ handlers (GraceFulShutdown.__init__ args kwargs s).2 = handlers s
  ∧ trace (GraceFulShutdown.__init__ args kwargs s).2 = trace s.
Proof.
  simpl. split; [|done]. apply list_lookup_middle. done.
Qed.

(** Whatever becomes of [__enter__], the handler found in the table has
    been saved in [self.old_handler]. *)
Lemma enter_saves_handler (early : list Z) (os : OS) (self : nat)
    (s : state) (o0 : gs_object) :
  heap s !! self = Some o0 →
  ∃ o, heap (GraceFulShutdown.enter_with early os self s).2 !! self = Some o
     ∧ gs_old_handler o = handlers s GraceFulShutdown.SIGTERM
     ∧ handlers (GraceFulShutdown.enter_with early os self s).2
         GraceFulShutdown.SIGTERM = GracefulHandler self.
Proof.
  intros Hself.
  unfold GraceFulShutdown.enter_with, signal_getsignal, signal_signal,
    GraceFulShutdown.set_old_handler, GraceFulShutdown.set_process,
    GraceFulShutdown.attributes, subprocess_Popen.
  py_unfold. simpl.
  match goal with
  | |- context [GraceFulShutdown.deliveries early ?t] =>
      destruct (deliveries_frame early t) as [Hh Hp];
      destruct (GraceFulShutdown.deliveries early t) as [[[]| |] s1]
  end; simpl in *.
  - rewrite Hp, list_lookup_alter_eq, Hself. simpl.
    destruct (os_spawn os (gs_args o0)) as [child|]; simpl.
    + rewrite list_lookup_alter_eq, Hp, list_lookup_alter_eq, Hself. simpl.
      eexists. split; [done|]. split; [done|]. by rewrite Hh.
    + rewrite Hp, list_lookup_alter_eq, Hself. simpl.
      eexists. split; [done|]. split; [done|]. by rewrite Hh.
  - rewrite Hp, list_lookup_alter_eq, Hself. simpl.
    eexists. split; [done|]. split; [done|]. by rewrite Hh.
  - rewrite Hp, list_lookup_alter_eq, Hself. simpl.
    eexists. split; [done|]. split; [done|]. by rewrite Hh.
Qed.

(** C3: take any interpreter state, construct a [GraceFulShutdown] object on
    any command vector and spawn options, call [__enter__] (signals may
    arrive while it runs, and the spawn may fail), let any series of signal
    arrivals and waits for the child follow, and call [__exit__]: whenever
    [__exit__] returns, the handler of the termination signal in the table
    is the one that was there before [__enter__]; and it does return,
    leaving the whole table as it was, unless that handler was one not
    installed from Python. *)
Theorem forwarder_scope_restores_handler
    (os : OS) (s : state) (args : list string) (kwargs : popen_kwargs)
    (early : list Z) (body : list scope_event) (exc : option exn) :
  let self := length (heap s) in
  let s0 := (GraceFulShutdown.__init__ args kwargs s).2 in
  let s1 := (GraceFulShutdown.enter_with early os self s0).2 in
  let s2 := scope_run os self body s1 in
  (∀ (r : bool) (s3 : state),
     GraceFulShutdown.__exit__ self exc s2 = (Returned r, s3) →
     handlers s3 GraceFulShutdown.SIGTERM = handlers s GraceFulShutdown.SIGTERM)
  ∧ (handlers s GraceFulShutdown.SIGTERM ≠ HNone →
     ∃ s3, GraceFulShutdown.__exit__ self exc s2 = (Returned false, s3)
         ∧ ∀ signum, handlers s3 signum = handlers s signum).
Proof.
  intros self s0 s1 s2.
  destruct (init_allocates args kwargs s) as (Halloc & Hh0 & _).
  destruct (enter_saves_handler early os self s0 _ Halloc) as (o & Ho & Hold & Hnew).
  fold s1 in Ho, Hnew.
  change (handlers s0 GraceFulShutdown.SIGTERM)
    with (handlers s GraceFulShutdown.SIGTERM) in Hold.
  destruct (scope_run_frame os self body s1) as [Hh2 Hp2]. fold s2 in Hh2, Hp2.
  assert (Htable : ∀ signum, signum ≠ GraceFulShutdown.SIGTERM →
                     handlers s1 signum = handlers s signum).
  { intros signum Hne. subst s1.
    unfold GraceFulShutdown.enter_with, signal_getsignal, signal_signal,
      GraceFulShutdown.set_old_handler.
    py_unfold. simpl.
    match goal with
    | |- context [GraceFulShutdown.deliveries early ?t] =>
        destruct (deliveries_frame early t) as [Hh Hp];
        assert (Ht : handlers t signum = handlers s signum)
          by (simpl; rewrite <- Hh0;
              destruct (Z.eqb_spec signum GraceFulShutdown.SIGTERM); done);
        destruct (GraceFulShutdown.deliveries early t) as [[[]| |] s1']
    end; simpl in *; try (rewrite Hh; exact Ht).
    unfold GraceFulShutdown.attributes, subprocess_Popen.
    destruct (heap s1' !! self) as [o'|]; simpl; [|rewrite Hh; exact Ht].
    destruct (os_spawn os (gs_args o')); simpl; rewrite Hh; exact Ht. }
  assert (Hheap : heap s2 !! self = Some o) by (by rewrite Hp2).
  split.
  - intros r s3 Hret.
    unfold GraceFulShutdown.__exit__, GraceFulShutdown.attributes,
      signal_signal in Hret.
    py_unfold. rewrite Hheap in Hret. simpl in Hret. rewrite Hold in Hret.
    destruct (handlers s GraceFulShutdown.SIGTERM) eqn:Hs;
      rewrite ?Hs in Hret; simpl in Hret; inversion Hret; subst; simpl; done.
  - intros Hnone.
    unfold GraceFulShutdown.__exit__, GraceFulShutdown.attributes,
      signal_signal.
    py_unfold. rewrite Hheap. simpl. rewrite Hold.
    destruct (handlers s GraceFulShutdown.SIGTERM) eqn:Hs; [..|done| |];
      simpl; (eexists; split; [done|]); intros signum; simpl;
      (destruct (Z.eqb_spec signum GraceFulShutdown.SIGTERM) as [->|Hne];
       [done|rewrite Hh2; by apply Htable]).
Qed.

(** A scope in the sample world during which the signal arrives twice,
    once before and once after the child has been waited for. *)
Lemma forwarder_scope_restores_handler_witness :
  ∃ s3,
    GraceFulShutdown.__exit__ 0 None
      (scope_run sample_os 0
         [SignalArrives 15; WaitsForChild; SignalArrives 15]
         (GraceFulShutdown.enter_with [] sample_os 0
            (GraceFulShutdown.__init__ ["sleep"; "1"] no_kwargs sample_state).2).2)
    = (Returned false, s3)
    ∧ handlers s3 GraceFulShutdown.SIGTERM
      = handlers sample_state GraceFulShutdown.SIGTERM.
Proof.
  eexists. split; [vm_compute; reflexivity|].
  eapply (proj1 (forwarder_scope_restores_handler sample_os sample_state
                   ["sleep"; "1"] no_kwargs []
                   [SignalArrives 15; WaitsForChild; SignalArrives 15] None)).
  vm_compute. reflexivity.
Defined.

(** C2: a termination signal that arrives after [__enter__] has installed
    the handler and before [Popen] has returned makes the handler raise
    [AttributeError], for every command vector and in every state:
    [__enter__] is aborted by that exception, the child is never spawned,
    and the handler stays installed. *)
Theorem handler_raises_before_spawn
    (os : OS) (s : state) (args : list string) (kwargs : popen_kwargs) :
  let self := length (heap s) in
  let s0 := (GraceFulShutdown.__init__ args kwargs s).2 in
  ∃ s1,
    GraceFulShutdown.enter_with [GraceFulShutdown.SIGTERM] os self s0
    = (Raised AttributeError, s1)
    ∧ trace s1 = trace s ++ [EGetSignal GraceFulShutdown.SIGTERM;
                             ESignal GraceFulShutdown.SIGTERM (GracefulHandler self)]
    ∧ handlers s1 GraceFulShutdown.SIGTERM = GracefulHandler self.
Proof.
  intros self s0. subst self s0.
  destruct (init_allocates args kwargs s) as (Halloc & _ & _).
  unfold GraceFulShutdown.enter_with, signal_getsignal, signal_signal,
    GraceFulShutdown.set_old_handler, GraceFulShutdown.deliveries,
    GraceFulShutdown.deliver, GraceFulShutdown.graceful_shutdown_handler,
    GraceFulShutdown.attributes.
  py_unfold. simpl in *.
  rewrite list_lookup_alter_eq, Halloc. simpl.
  eexists. split; [done|]. simpl. split; [|done].
  by rewrite <- app_assoc.
Qed.

Lemma terminations_app (child : Z) (tr1 tr2 : list event) :
  terminations child (tr1 ++ tr2)
  = (terminations child tr1 + terminations child tr2)%nat.
Proof.
  induction tr1 as [|e tr1 IH]; [done|].
  destruct e; simpl; try done.
  destruct (_ =? _); simpl; by rewrite IH.
Qed.

Lemma terminations_repeat (child : Z) (n : nat) :
  terminations child (repeat (ETerminate child) n) = n.
Proof.
  induction n as [|n IH]; [done|].
  simpl. by rewrite Z.eqb_refl, IH.
Qed.

Lemma deliver_sigterm (self : nat) (o : gs_object) (p : Popen) (s : state) :
  handlers s GraceFulShutdown.SIGTERM = GracefulHandler self →
  heap s !! self = Some o →
  gs_process o = Some p →
  GraceFulShutdown.deliver GraceFulShutdown.SIGTERM s
  = (Returned tt, emit (ETerminate (popen_pid p)) s).
Proof.
  intros Hh Hheap Hp.
  unfold GraceFulShutdown.deliver, GraceFulShutdown.graceful_shutdown_handler,
    GraceFulShutdown.attributes, popen_terminate.
  py_unfold. rewrite Hh. simpl. by rewrite Hheap, Hp.
Qed.

Lemma deliveries_sigterm (self : nat) (o : gs_object) (p : Popen) (n : nat) :
  ∀ s : state,
    handlers s GraceFulShutdown.SIGTERM = GracefulHandler self →
    heap s !! self = Some o →
    gs_process o = Some p →
    GraceFulShutdown.deliveries (repeat GraceFulShutdown.SIGTERM n) s
    = (Returned tt,
       MkState (subreaper s) (handlers s) (heap s) (wait_queue s)
               (trace s ++ repeat (ETerminate (popen_pid p)) n)).
Proof.
  induction n as [|n IH]; intros s Hh Hheap Hp.
  - simpl. unfold mret, Py_ret, py_ret. by rewrite app_nil_r, state_eta.
  - simpl. unfold mbind, Py_bind, py_bind.
    rewrite (deliver_sigterm self o p s Hh Hheap Hp).
    rewrite (IH (emit (ETerminate (popen_pid p)) s) Hh Hheap Hp).
    simpl. by rewrite <- app_assoc.
Qed.

Lemma enter_spawns (os : OS) (self : nat) (o0 : gs_object) (child : Z)
    (s : state) :
  heap s !! self = Some o0 →
  os_spawn os (gs_args o0) = Some child →
  ∃ s1 o1,
    GraceFulShutdown.__enter__ os self s = (Returned (MkPopen child), s1)
    ∧ trace s1 = trace s ++ [EGetSignal GraceFulShutdown.SIGTERM;
                             ESignal GraceFulShutdown.SIGTERM (GracefulHandler self);
                             EPopen (gs_args o0) (gs_kwargs o0)]
    ∧ handlers s1 GraceFulShutdown.SIGTERM = GracefulHandler self
    ∧ heap s1 !! self = Some o1
    ∧ gs_process o1 = Some (MkPopen child)
    ∧ gs_old_handler o1 = handlers s GraceFulShutdown.SIGTERM
    ∧ subreaper s1 = subreaper s
    ∧ wait_queue s1 = wait_queue s.
Proof.
  intros Hself Hspawn.
  unfold GraceFulShutdown.__enter__, GraceFulShutdown.enter_with,
    signal_getsignal, signal_signal, GraceFulShutdown.set_old_handler,
    GraceFulShutdown.set_process, GraceFulShutdown.deliveries,
    GraceFulShutdown.attributes, subprocess_Popen.
  py_unfold. simpl.
  rewrite list_lookup_alter_eq, Hself. simpl. rewrite Hspawn. simpl.
  eexists _, _. split; [done|]. simpl.
  rewrite !list_lookup_alter_eq, Hself. simpl.
  repeat split; try done. by rewrite <- !app_assoc.
Qed.

(** C5, as the code has it: once [__enter__] has returned, every arrival
    of the termination signal makes one [terminate()] call on the child;
    [n] arrivals make [n] calls. *)
Theorem forwarder_forwards_every_signal
    (os : OS) (s : state) (args : list string) (kwargs : popen_kwargs)
    (child : Z) (n : nat) :
  os_spawn os args = Some child →
  let self := length (heap s) in
  let s0 := (GraceFulShutdown.__init__ args kwargs s).2 in
  ∃ s1 s2,
    GraceFulShutdown.__enter__ os self s0 = (Returned (MkPopen child), s1)
    ∧ GraceFulShutdown.deliveries (repeat GraceFulShutdown.SIGTERM n) s1
      = (Returned tt, s2)
    ∧ trace s2 = trace s1 ++ repeat (ETerminate child) n
    ∧ terminations child (trace s2) = (terminations child (trace s) + n)%nat.
Proof.
  intros Hspawn self s0.
  destruct (init_allocates args kwargs s) as (Halloc & _ & Htr0).
  destruct (enter_spawns os self _ child s0 Halloc Hspawn)
    as (s1 & o1 & Henter & Htr & Hh & Hheap & Hp & _).
  eexists s1, _. split; [exact Henter|].
  split; [exact (deliveries_sigterm self o1 _ n s1 Hh Hheap Hp)|].
  simpl. split; [done|].
  rewrite Htr. change (trace s0) with (trace s).
  rewrite !terminations_app, terminations_repeat. simpl. lia.
Qed.

(** Three arrivals in the sample world. *)
Lemma forwarder_forwards_every_signal_witness :
  ∃ s1 s2,
    GraceFulShutdown.__enter__ sample_os 0
      (GraceFulShutdown.__init__ cron_daemon_cmd no_kwargs sample_state).2
    = (Returned (MkPopen 42), s1)
    ∧ GraceFulShutdown.deliveries (repeat GraceFulShutdown.SIGTERM 3) s1
      = (Returned tt, s2)
    ∧ trace s2 = trace s1 ++ repeat (ETerminate 42) 3
    ∧ terminations 42 (trace s2) = (terminations 42 (trace sample_state) + 3)%nat.
Proof.
  apply (forwarder_forwards_every_signal sample_os sample_state
           cron_daemon_cmd no_kwargs 42 3).
  reflexivity.
Defined.

(** C5 as stated fails: two arrivals of the termination signal in an
    active scope make two [terminate()] calls on the child, not one. *)
Lemma forwarding_not_at_most_once :
  ¬ (∀ (os : OS) (s : state) (args : list string) (kwargs : popen_kwargs)
       (child : Z) (signums : list Z),
       os_spawn os args = Some child →
       let self := length (heap s) in
       let s1 := (GraceFulShutdown.__enter__ os self
                    (GraceFulShutdown.__init__ args kwargs s).2).2 in
       (terminations child (trace (GraceFulShutdown.deliveries signums s1).2)
        ≤ terminations child (trace s) + 1)%nat).
Proof.
  intros Hclaim.
  specialize (Hclaim sample_os sample_state cron_daemon_cmd no_kwargs 42
                [GraceFulShutdown.SIGTERM; GraceFulShutdown.SIGTERM] eq_refl).
  vm_compute in Hclaim. lia.
Qed.

(** *** The cron launcher *)

Lemma enter_fails (os : OS) (self : nat) (o0 : gs_object) (s : state) :
  heap s !! self = Some o0 →
  os_spawn os (gs_args o0) = None →
  ∃ s1,
    GraceFulShutdown.__enter__ os self s = (Raised (OSError ENOENT), s1)
    ∧ trace s1 = trace s ++ [EGetSignal GraceFulShutdown.SIGTERM;
                             ESignal GraceFulShutdown.SIGTERM (GracefulHandler self);
                             EPopen (gs_args o0) (gs_kwargs o0)]
    ∧ handlers s1 GraceFulShutdown.SIGTERM = GracefulHandler self
    ∧ subreaper s1 = subreaper s
    ∧ wait_queue s1 = wait_queue s.
Proof.
  intros Hself Hspawn.
  unfold GraceFulShutdown.__enter__, GraceFulShutdown.enter_with,
    signal_getsignal, signal_signal, GraceFulShutdown.set_old_handler,
    GraceFulShutdown.set_process, GraceFulShutdown.deliveries,
    GraceFulShutdown.attributes, subprocess_Popen.
  py_unfold. simpl.
  rewrite list_lookup_alter_eq, Hself. simpl. rewrite Hspawn. simpl.
  eexists. split; [done|]. simpl.
  repeat split; try done. by rewrite <- !app_assoc.
Qed.

(** [__exit__] on an object whose [old_handler] is known. *)
Lemma exit_restores (self : nat) (o : gs_object) (exc : option exn) (s : state) :
  heap s !! self = Some o →
  ∃ s',
    GraceFulShutdown.__exit__ self exc s
    = (match gs_old_handler o with
       | HNone => Raised TypeError
       | _ => Returned false
       end, s')
    ∧ trace s' = trace s ++ [ESignal GraceFulShutdown.SIGTERM (gs_old_handler o)]
    ∧ handlers s' GraceFulShutdown.SIGTERM
      = match gs_old_handler o with
        | HNone => handlers s GraceFulShutdown.SIGTERM
        | h => h
        end
    ∧ subreaper s' = subreaper s
    ∧ wait_queue s' = wait_queue s.
Proof.
  intros Hself.
  unfold GraceFulShutdown.__exit__, GraceFulShutdown.attributes, signal_signal.
  py_unfold. rewrite Hself. simpl.
  destruct (gs_old_handler o); simpl; eexists; done.
Qed.

Lemma run_cron_runs (os : OS) (command : string) (args : list string)
    (s : state) :
  let self := length (heap s) in
  ∃ s',
    match os_spawn os cron_daemon_cmd with
    | None =>
        run_cron os command args s = (Raised (OSError ENOENT), s')
        ∧ trace s' = trace s ++ cron_entering os self ++ cron_leaving s
        ∧ subreaper s' = false
    | Some child =>
        match child_exit os child with
        | None =>
            run_cron os command args s = (Diverges, s')
            ∧ trace s' = trace s ++ cron_entering os self ++ [EPopenWait child]
            ∧ subreaper s' = true
            ∧ handlers s' GraceFulShutdown.SIGTERM = GracefulHandler self
        | Some status =>
            run_cron os command args s
            = (match handlers s GraceFulShutdown.SIGTERM with
               | HNone => Raised TypeError
               | _ => Returned tt
               end, s')
            ∧ trace s' = trace s ++ cron_entering os self
                           ++ [EPopenWait child;
                               ESignal GraceFulShutdown.SIGTERM
                                 (handlers s GraceFulShutdown.SIGTERM)]
                           ++ cron_leaving s
            ∧ subreaper s' = false
            ∧ handlers s' GraceFulShutdown.SIGTERM
              = match handlers s GraceFulShutdown.SIGTERM with
                | HNone => GracefulHandler self
                | h => h
                end
        end
    end.
Proof.
  intros self.
  set (kwargs := MkKwargs None (Some (cron_daemon_env os))).
  set (sa := emit (ELogInfo "-> running cron daemon..." [])
               (ChildSubReaper.__enter__ s).2).
  destruct (init_allocates cron_daemon_cmd kwargs sa) as (Halloc & _ & _).
  change (length (heap sa)) with self in Halloc.
  set (sb := (GraceFulShutdown.__init__ cron_daemon_cmd kwargs sa).2) in *.
  assert (Hrun : run_cron os command args s
          = with_ ChildSubReaper.__enter__ ChildSubReaper.__exit__
              (fun _ _ =>
                 with_ (GraceFulShutdown.__enter__ os self)
                   (GraceFulShutdown.__exit__ self)
                   (fun p => popen_wait os p;; mret tt) sb) s) by reflexivity.
  rewrite Hrun. clear Hrun. unfold with_ at 1.
  change (ChildSubReaper.__enter__ s)
    with (Returned tt, set_subreaper true (emit (EPrctl PR_SET_CHILD_SUBREAPER 1) s)).
  unfold with_.
  destruct (os_spawn os cron_daemon_cmd) as [child|] eqn:Hspawn.
  - destruct (enter_spawns os self _ child sb Halloc Hspawn)
      as (s1 & o1 & Henter & Htr & Hh & Hheap & Hp & Hold & Hsub & Hq).
    rewrite Henter. unfold popen_wait. py_unfold. simpl.
    destruct (child_exit os child) as [status|].
    + assert (Hheap' : heap (emit (EPopenWait child) s1) !! self = Some o1) by done.
      destruct (exit_restores self o1 None _ Hheap')
        as (s2 & Hexit & Htr2 & Hh2 & Hsub2 & Hq2).
      rewrite Hexit, Hold. change (handlers sb) with (handlers s).
      rewrite Hold in Htr2, Hh2. change (handlers sb) with (handlers s) in Htr2, Hh2.
      simpl in Htr2, Hh2, Hq2.
      destruct (handlers s GraceFulShutdown.SIGTERM) eqn:Hs;
        rewrite exit_drains; eexists; (split; [reflexivity|]);
        simpl; rewrite Htr2, Htr, Hq2, Hq, ?Hh2, ?Hh; simpl;
        (split; [by rewrite <- !app_assoc|done]).
    + eexists. split; [done|]. simpl. rewrite Htr, Hsub, Hh. simpl.
      split; [by rewrite <- !app_assoc|done].
  - destruct (enter_fails os self _ sb Halloc Hspawn)
      as (s1 & Henter & Htr & Hh & Hsub & Hq).
    rewrite Henter, exit_drains. eexists. split; [reflexivity|].
    simpl. rewrite Htr, Hq. simpl. split; [by rewrite <- !app_assoc|done].
Qed.




(** *** The script launcher *)

Lemma run_shell_runs (os : OS) (arg0 : string) (rest : list string)
    (s : state) :
  let argv := resolved os arg0 rest in
  let spawning := [ELogInfo "running %s" [VStr (join_spaces argv)];
                   EPopen argv (MkKwargs (Some SCRIPT_DIR) None)] in
  ∃ s',
    match os_spawn os argv with
    | None =>
        run_shell os (arg0 :: rest) s = (Raised (OSError ENOENT), s')
        ∧ trace s' = trace s ++ spawning
    | Some child =>
        run_shell os (arg0 :: rest) s
        = (match child_exit os child with
           | Some _ => Returned tt
           | None => Diverges
           end, s')
        ∧ trace s' = trace s ++ spawning ++ [EPopenWait child]
    end
    ∧ subreaper s' = subreaper s
    ∧ handlers s' = handlers s.
Proof.
  intros argv spawning. subst spawning argv.
  unfold run_shell, resolved, getitem, subprocess_Popen, popen_wait.
  py_unfold. simpl.
  match goal with
  | |- context [path_exists os ?p] => destruct (path_exists os p)
  end; simpl;
    match goal with
    | |- context [os_spawn os ?v] => destruct (os_spawn os v) as [child|]
    end; simpl;
    try (destruct (child_exit os child)); simpl;
    eexists; (split; [split; [reflexivity|]|done]);
    simpl; by rewrite <- ?app_assoc.
Qed.


(** *** Dispatch *)

Lemma service_mapping_default (arg0 : string) :
  arg0 ≠ "cron" → arg0 ≠ "start" → service_mapping !! arg0 = None.
Proof.
  intros Hcron Hstart. unfold service_mapping.
  rewrite lookup_insert_ne by done. by apply lookup_singleton_ne.
Qed.

Lemma dispatch_selects (os : OS) (args : list string) :
  dispatch os args
  = match args with
    | [] => run_shell os ["/bin/bash"]
    | arg0 :: rest =>
        if String.eqb arg0 "cron" then run_cron os arg0 rest
        else if String.eqb arg0 "start" then start_service os arg0 rest
        else run_shell os args
    end.
Proof.
  destruct args as [|arg0 rest]; [reflexivity|].
  destruct (String.eqb_spec arg0 "cron") as [->|Hcron]; [reflexivity|].
  destruct (String.eqb_spec arg0 "start") as [->|Hstart]; [reflexivity|].
  unfold dispatch, getitem. simpl.
  unfold mbind, Py_bind, py_bind, mret, Py_ret, py_ret.
  by rewrite (service_mapping_default arg0 Hcron Hstart).
Qed.

(** C1: [dispatch] of the empty vector is [run_shell] on [/bin/bash];
    [dispatch] of a vector that starts with [cron] is [run_cron], of one
    that starts with [start] is [start_service], both on the elements that
    follow, and the first of those is the service name [start_service]
    puts in the context; [dispatch] of any other vector is [run_shell] on
    the whole vector.  Every run of [dispatch] is one call of one
    launcher. *)
Theorem dispatch_selects_one_launcher (os : OS) (args : list string) :
  dispatch os args
  = match args with
    | [] => run_shell os ["/bin/bash"]
    | arg0 :: rest =>
        if String.eqb arg0 "cron" then run_cron os arg0 rest
        else if String.eqb arg0 "start" then start_service os arg0 rest
        else run_shell os args
    end
  ∧ dispatch os args
    = call os (selected args) (match args with [] => ["/bin/bash"] | _ => args end)
  ∧ ∀ (service : string) (rest : list string) (context : gmap string pyval)
      (s : state),
      get_context os s = (Returned context, s) →
      dispatch os ("start" :: service :: rest) s
      = (let context := <["service" := VStr service]> context in
         templatize os "uwsgi.ini" (os_path_join "~" ["etc"; "uwsgi.ini"]) context;;
         templatize os "nginx.conf" (os_path_join "~" ["etc"; "nginx.conf"]) context;;
         let supervisord_config :=
           expanduser os (os_path_join "~" ["etc"; "supervisord.conf"]) in
         templatize os "supervisord.conf" supervisord_config context;;
         execute os ["supervisord"; "-c"; supervisord_config]) s.
Proof.
  split; [apply dispatch_selects|]. split.
  - rewrite dispatch_selects.
    destruct args as [|arg0 rest]; [reflexivity|]. simpl.
    destruct (String.eqb arg0 "cron"); [reflexivity|].
    by destruct (String.eqb arg0 "start").
  - intros service rest context s Hctx.
    rewrite dispatch_selects. simpl.
    unfold start_service, getitem. simpl.
    unfold mbind at 1, Py_bind at 1, py_bind at 1. rewrite Hctx.
    reflexivity.
Qed.

(** In the sample web-service world [dispatch] of [start app] renders with
    the service name [app]. *)
Lemma dispatch_selects_one_launcher_witness :
  dispatch sample_os_web ["start"; "app"] sample_state
  = (let context := <["service" := VStr "app"]> sample_context in
     templatize sample_os_web "uwsgi.ini" "~/etc/uwsgi.ini" context;;
     templatize sample_os_web "nginx.conf" "~/etc/nginx.conf" context;;
     templatize sample_os_web "supervisord.conf" "~/etc/supervisord.conf" context;;
     execute sample_os_web ["supervisord"; "-c"; "~/etc/supervisord.conf"])
      sample_state.
Proof.
  apply (proj2 (proj2 (dispatch_selects_one_launcher sample_os_web
                         ["start"; "app"])) "app" [] sample_context).
  reflexivity.
Defined.

(** *** [execute] and the web-service launcher *)

Lemma execute_runs (os : OS) (args : list string) (s : state) :
  let running := [ELogInfo "-> running %s" [VStr (join_spaces args)];
                  EPopen args no_kwargs] in
  ∃ s',
    match os_spawn os args with
    | None =>
        execute os args s = (Raised (OSError ENOENT), s')
        ∧ trace s' = trace s ++ running
    | Some child =>
        execute os args s
        = (match child_exit os child with
           | Some _ => Returned tt
           | None => Diverges
           end, s')
        ∧ trace s' = trace s ++ running ++ [EPopenWait child]
    end
    ∧ subreaper s' = subreaper s
    ∧ handlers s' = handlers s.
Proof.
  intros running. subst running.
  unfold execute, subprocess_check_call, subprocess_Popen, popen_wait.
  py_unfold. simpl.
  destruct (os_spawn os args) as [child|]; simpl.
  - destruct (child_exit os child) as [status|]; simpl.
    + destruct (status =? 0); simpl;
        eexists; (split; [split; [reflexivity|]|done]);
        simpl; by rewrite <- !app_assoc.
    + eexists. split; [split; [reflexivity|]|done].
      simpl. by rewrite <- !app_assoc.
  - eexists. split; [split; [reflexivity|]|done].
    simpl. by rewrite <- !app_assoc.
Qed.

Lemma templatize_renders (os : OS) (filename destination_path : string)
    (context : gmap string pyval) (s : state) :
  render_error os (os_path_join TEMPLATE_PATH [filename]) = None →
  templatize os filename destination_path context s
  = (Returned tt,
     emit (ETemplatize (os_path_join TEMPLATE_PATH [filename])
             (expanduser os destination_path) context) s).
Proof.
  intros Hok. unfold templatize. py_unfold. by rewrite Hok.
Qed.





(** C6, as the code has it: when [dispatch] runs a script and the child
    exits, with whatever status, [run_shell] returns normally after the
    wait, so that the interpreter ends with status 0, and nothing is
    logged after the command line; and [execute] returns normally whatever
    the status of its command, with no call after the wait. *)
Theorem child_status_is_discarded (os : OS) (arg0 : string)
    (rest : list string) (s : state) (child status : Z) :
  arg0 ≠ "cron" → arg0 ≠ "start" →
  os_spawn os (resolved os arg0 rest) = Some child →
  child_exit os child = Some status →
  let r := dispatch os (arg0 :: rest) s in
  r.1 = Returned tt
  ∧ exit_status r.1 = Some 0
  ∧ trace r.2
    = trace s ++ [ELogInfo "running %s" [VStr (join_spaces (resolved os arg0 rest))];
                  EPopen (resolved os arg0 rest) (MkKwargs (Some SCRIPT_DIR) None);
                  EPopenWait child]
  ∧ ∀ (args : list string) (t : state),
      os_spawn os args = Some child →
      (execute os args t).1 = Returned tt
      ∧ trace (execute os args t).2
        = trace t ++ [ELogInfo "-> running %s" [VStr (join_spaces args)];
                      EPopen args no_kwargs;
                      EPopenWait child].
Proof.
  intros Hcron Hstart Hspawn Hexit r. subst r.
  rewrite dispatch_selects.
  destruct (String.eqb_spec arg0 "cron") as [|_]; [done|].
  destruct (String.eqb_spec arg0 "start") as [|_]; [done|].
  destruct (run_shell_runs os arg0 rest s) as (s' & H & _).
  rewrite Hspawn, Hexit in H. destruct H as [-> Htr].
  split; [done|]. split; [done|]. split; [done|].
  intros args t Hargs.
  destruct (execute_runs os args t) as (t' & H & _).
  rewrite Hargs, Hexit in H. destruct H as [-> Htr']. done.
Qed.

(** A script that exits with status 3 in the sample world. *)
Lemma child_status_is_discarded_witness :
  let r := dispatch sample_os ["migrate"; "--noinput"] sample_state in
  r.1 = Returned tt
  ∧ exit_status r.1 = Some 0
  ∧ trace r.2
    = trace sample_state
      ++ [ELogInfo "running %s" [VStr "migrate --noinput"];
          EPopen ["migrate"; "--noinput"] (MkKwargs (Some "/scripts") None);
          EPopenWait 42]
  ∧ ∀ (args : list string) (t : state),
      os_spawn sample_os args = Some 42 →
      (execute sample_os args t).1 = Returned tt
      ∧ trace (execute sample_os args t).2
        = trace t ++ [ELogInfo "-> running %s" [VStr (join_spaces args)];
                      EPopen args no_kwargs;
                      EPopenWait 42].
Proof.
  apply (child_status_is_discarded sample_os "migrate" ["--noinput"]
           sample_state 42 3); [discriminate|discriminate|reflexivity|reflexivity].
Defined.

(** C6 as stated fails: the script exits with status 3 and the interpreter
    ends with status 0. *)
Lemma script_status_not_propagated :
  ¬ (∀ (os : OS) (arg0 : string) (rest : list string) (s : state)
       (child status : Z),
       arg0 ≠ "cron" → arg0 ≠ "start" →
       os_spawn os (resolved os arg0 rest) = Some child →
       child_exit os child = Some status →
       status ≠ 0 →
       exit_status (dispatch os (arg0 :: rest) s).1 = Some status).
Proof.
  intros Hclaim.
  assert (H : exit_status (dispatch sample_os ["migrate"] sample_state).1 = Some 3).
  { apply (Hclaim sample_os "migrate" [] sample_state 42 3); done. }
  vm_compute in H. discriminate.
Qed.

(** *** The context and sample runs *)

(** [get_context] reads and never writes: with the two mandatory variables
    set and the host address found it returns, whatever [UWSGI_WORKERS]
    holds, and the context has no service name yet. *)
Lemma get_context_returns (os : OS) (s : state) (version project host : string) :
  environ os !! "PYTHON_VERSION" = Some version →
  environ os !! "PROJECT_NAME" = Some project →
  host_ip os = Returned host →
  ∃ context,
    get_context os s = (Returned context, s)
    ∧ context !! "project_name" = Some (VStr project)
    ∧ context !! "service" = None.
Proof.
  intros Hversion Hproject Hhost.
  unfold get_context, environ_getitem, get_host_ip.
  py_unfold. rewrite Hversion. simpl.
  destruct (environ os !! "UWSGI_WORKERS") as [workers|];
    [destruct (py_int os workers)|]; simpl;
    rewrite Hhost, Hproject; simpl;
    (eexists; split; [reflexivity|split; reflexivity]).
Qed.

Example get_context_sample :
  get_context sample_os_web sample_state = (Returned sample_context, sample_state).
Proof. reflexivity. Qed.

Example os_path_join_samples :
  os_path_join SCRIPT_DIR ["migrate"] = "/scripts/migrate"
  ∧ os_path_join SCRIPT_DIR ["/bin/bash"] = "/bin/bash"
  ∧ os_path_join "~" ["etc"; "uwsgi.ini"] = "~/etc/uwsgi.ini"
  ∧ TEMPLATE_PATH = "/home/blue/templates".
Proof. repeat split. Qed.

Example selected_samples :
  selected [] = Run_shell
  ∧ selected ["cron"] = Run_cron
  ∧ selected ["start"; "app"] = Start_service
  ∧ selected ["migrate"] = Run_shell.
Proof. repeat split. Qed.

Example dispatch_empty_sample :
  dispatch sample_os [] sample_state
  = (Returned tt,
     MkState false (handlers sample_state) [] (wait_queue sample_state)
       [ELogInfo "running %s" [VStr "/bin/bash"];
        EPopen ["/bin/bash"] (MkKwargs (Some "/scripts") None);
        EPopenWait 42]).
Proof. reflexivity. Qed.

Example run_cron_sample :
  let r := dispatch sample_os ["cron"] sample_state in
  r.1 = Returned tt
  ∧ trace r.2
    = [EPrctl 36 1;
       ELogInfo "-> running cron daemon..." [];
       EGetSignal 15;
       ESignal 15 (GracefulHandler 0);
       EPopen ["sudo"; "cron"; "-f"] (MkKwargs None (Some {[ "TZ" := "UTC" ]}));
       EPopenWait 42;
       ESignal 15 SIG_DFL;
       EOsWait;
       ELogInfo "Process #%s terminated with status %s" [VInt 7; VInt 0];
       EOsWait;
       ELogInfo "Process #%s terminated with status %s" [VInt 8; VInt 256];
       EOsWait;
       ELogInfo "All children were terminated." [];
       EPrctl 36 0]
  ∧ subreaper r.2 = false
  ∧ handlers r.2 15 = SIG_DFL.
Proof. repeat split. Qed.

Example early_signal_sample :
  let r := GraceFulShutdown.enter_with [15] sample_os 0
             (GraceFulShutdown.__init__ cron_daemon_cmd no_kwargs sample_state).2 in
  r.1 = Raised AttributeError
  ∧ trace r.2 = [EGetSignal 15; ESignal 15 (GracefulHandler 0)].
Proof. repeat split. Qed.

(** ** Further properties of the supervision code *)

(** *** [ChildSubReaper] *)

(** X1: leaving a [with ChildSubReaper()] block, normally or through an
    exception of its body, leaves the subreaper flag unset whatever the
    flag was before the block: the value found on entry is not put
    back. *)
Theorem subreaper_scope_clears_flag (body : Py unit) (s : state) :
  let r := with_ ChildSubReaper.__enter__ ChildSubReaper.__exit__
             (fun _ => body) s in
  r.1 ≠ Diverges → subreaper r.2 = false.
Proof.
  intros r. subst r. unfold with_.
  change (ChildSubReaper.__enter__ s)
    with (Returned tt, (ChildSubReaper.__enter__ s).2).
  cbv beta iota.
  destruct (body _) as [[[]|e|] s2]; rewrite ?exit_drains; simpl; done.
Qed.

(** A block entered while the flag is already set, as inside another
    [ChildSubReaper] block. *)
Lemma subreaper_scope_clears_flag_witness :
  subreaper (set_subreaper true sample_state) = true
  ∧ subreaper
      (with_ ChildSubReaper.__enter__ ChildSubReaper.__exit__
         (fun _ => logger_info "inner" [])
         (set_subreaper true sample_state)).2 = false.
Proof.
  split; [reflexivity|].
  apply (subreaper_scope_clears_flag (logger_info "inner" [])
           (set_subreaper true sample_state)).
  discriminate.
Defined.

Lemma drain_rest_reaped (children : list (Z * Z)) (q : list wait_outcome) :
  drain_rest (reaped children ++ q) = drain_rest q.
Proof. induction children as [|c children IH]; [done|]. exact IH. Qed.

(** X2: the drain loop stops at the first [os.wait()] that fails, whatever
    the errno: the children the operating system would have handed over
    after that failure are not waited for. *)
Theorem drain_stops_at_first_failure (exc : option exn) (s : state)
    (children : list (Z * Z)) (errno : Z) (rest : list wait_outcome) :
  wait_queue s = reaped children ++ WaitFails errno :: rest →
  let r := ChildSubReaper.__exit__ exc s in
  r.1 = Returned false
  ∧ wait_queue r.2 = rest
  ∧ trace r.2
    = trace s
      ++ flat_map (fun c => [EOsWait;
                             ELogInfo "Process #%s terminated with status %s"
                               [VInt c.1; VInt c.2]]) children
      ++ [EOsWait; ELogInfo "All children were terminated." [];
          EPrctl PR_SET_CHILD_SUBREAPER 0].
Proof.
  intros Hq r. subst r. rewrite exit_drains. simpl. rewrite Hq.
  rewrite drain_rest_reaped, drain_events_reaped. simpl.
  repeat split. by rewrite <- !app_assoc.
Qed.

(** One child is reaped, the next wait is interrupted (errno 4), and a
    second child is left behind. *)
Lemma drain_stops_at_first_failure_witness :
  let s := set_wait_queue [Reaped 7 0; WaitFails 4; Reaped 8 0] sample_state in
  let r := ChildSubReaper.__exit__ None s in
  r.1 = Returned false
  ∧ wait_queue r.2 = [Reaped 8 0]
  ∧ trace r.2
    = trace s
      ++ flat_map (fun c => [EOsWait;
                             ELogInfo "Process #%s terminated with status %s"
                               [VInt c.1; VInt c.2]]) [(7, 0)]
      ++ [EOsWait; ELogInfo "All children were terminated." [];
          EPrctl PR_SET_CHILD_SUBREAPER 0].
Proof.
  apply (drain_stops_at_first_failure None
           (set_wait_queue [Reaped 7 0; WaitFails 4; Reaped 8 0] sample_state)
           [(7, 0)] 4 [Reaped 8 0]).
  reflexivity.
Defined.

(** *** [GraceFulShutdown] and [run_cron] *)




(** X4: when the handler of the termination signal found on entry was not
    installed from Python, [run_cron] ends with [TypeError] although the
    daemon was spawned and has exited: the restore is refused, the
    forwarding handler stays in the table, and the subreaper block is
    still closed. *)
Theorem foreign_handler_breaks_restore (os : OS) (command : string)
    (args : list string) (s : state) (child status : Z) :
  handlers s GraceFulShutdown.SIGTERM = HNone →
  os_spawn os cron_daemon_cmd = Some child →
  child_exit os child = Some status →
  let r := run_cron os command args s in
  r.1 = Raised TypeError
  ∧ handlers r.2 GraceFulShutdown.SIGTERM = GracefulHandler (length (heap s))
  ∧ subreaper r.2 = false
  ∧ exit_status r.1 = Some 1.
Proof.
  intros Hnone Hspawn Hexit r. subst r.
  destruct (run_cron_runs os command args s) as (s' & H).
  rewrite Hspawn, Hexit, Hnone in H.
  destruct H as (-> & _ & Hsub & Hh). done.
Qed.

Lemma foreign_handler_breaks_restore_witness :
  let s := set_handlers (fun _ => HNone) sample_state in
  let r := run_cron sample_os "cron" [] s in
  r.1 = Raised TypeError
  ∧ handlers r.2 GraceFulShutdown.SIGTERM = GracefulHandler (length (heap s))
  ∧ subreaper r.2 = false
  ∧ exit_status r.1 = Some 1.
Proof.
  apply (foreign_handler_breaks_restore sample_os "cron" []
           (set_handlers (fun _ => HNone) sample_state) 42 3);
    reflexivity.
Defined.

(** X5: [run_cron] alone never calls [terminate()]: in every world, with
    the spawn failing or not and the daemon exiting or not, the number of
    [terminate()] calls on any process is the same after it as before. *)
Theorem run_cron_never_terminates_by_itself (os : OS) (command : string)
    (args : list string) (s : state) (child : Z) :
  terminations child (trace (run_cron os command args s).2)
  = terminations child (trace s).
Proof.
  destruct (run_cron_runs os command args s) as (s' & H).
  assert (Hdrain : ∀ q, terminations child (drain_events q) = O).
  { induction q as [|[c st|errno] q IH]; simpl; done. }
  destruct (os_spawn os cron_daemon_cmd) as [pid|].
  - destruct (child_exit os pid) as [status|].
    + destruct H as (-> & Htr & _). simpl. rewrite Htr.
      unfold cron_leaving. rewrite !terminations_app, Hdrain. simpl. lia.
    + destruct H as (-> & Htr & _). simpl. rewrite Htr.
      rewrite !terminations_app. simpl. lia.
  - destruct H as (-> & Htr & _). simpl. rewrite Htr.
    unfold cron_leaving. rewrite !terminations_app, Hdrain. simpl. lia.
Qed.

(** X6: once [run_cron] has come back from a daemon that exited, a
    termination signal is no longer forwarded: with the handler found on
    entry put back (one installed from Python or one of the two special
    dispositions, and not itself a forwarding handler), the arrival of the
    signal calls nothing and leaves the state alone. *)
Theorem no_forwarding_after_scope (os : OS) (command : string)
    (args : list string) (s : state) (child status : Z) :
  handlers s GraceFulShutdown.SIGTERM ≠ HNone →
  (∀ self, handlers s GraceFulShutdown.SIGTERM ≠ GracefulHandler self) →
  os_spawn os cron_daemon_cmd = Some child →
  child_exit os child = Some status →
  let r := run_cron os command args s in
  r.1 = Returned tt
  ∧ handlers r.2 GraceFulShutdown.SIGTERM = handlers s GraceFulShutdown.SIGTERM
  ∧ GraceFulShutdown.deliver GraceFulShutdown.SIGTERM r.2 = (Returned tt, r.2).
Proof.
  intros Hnone Hother Hspawn Hexit r. subst r.
  destruct (run_cron_runs os command args s) as (s' & H).
  rewrite Hspawn, Hexit in H. destruct H as (-> & _ & _ & Hh). simpl.
  unfold GraceFulShutdown.deliver. rewrite Hh.
  destruct (handlers s GraceFulShutdown.SIGTERM) as [| | |self|id] eqn:Hs;
    try done.
  by destruct (Hother self).
Qed.

Lemma no_forwarding_after_scope_witness :
  let r := run_cron sample_os "cron" [] sample_state in
  r.1 = Returned tt
  ∧ handlers r.2 GraceFulShutdown.SIGTERM
    = handlers sample_state GraceFulShutdown.SIGTERM
  ∧ GraceFulShutdown.deliver GraceFulShutdown.SIGTERM r.2 = (Returned tt, r.2).
Proof.
  apply (no_forwarding_after_scope sample_os "cron" [] sample_state 42 3);
    [discriminate|discriminate|reflexivity|reflexivity].
Defined.

(** *** [get_context], [start_service] and [dispatch] *)

Lemma get_context_reads_only (os : OS) (s : state) :
  (get_context os s).2 = s.
Proof.
  unfold get_context, environ_getitem, get_host_ip. py_unfold.
  destruct (environ os !! "PYTHON_VERSION") as [version|]; simpl; [|done].
  destruct (environ os !! "UWSGI_WORKERS") as [workers|];
    [destruct (py_int os workers)|]; simpl;
    (destruct (host_ip os) as [host|e|]; simpl; [|done|done]);
    by destruct (environ os !! "PROJECT_NAME").
Qed.

(** X7: [get_context] reads and never writes, and it fails in a fixed
    order: a missing [PYTHON_VERSION] is a [KeyError] before anything
    else is looked at; then the failure of [get_host_ip] is the failure
    of [get_context], also when [RSYSLOG_HOST] is set, because the
    default is computed before the lookup; then a missing [PROJECT_NAME]
    is a [KeyError].  Whatever [UWSGI_WORKERS] holds is never a
    failure. *)
Theorem get_context_error_order (os : OS) (s : state) :
  (get_context os s).2 = s
  ∧ match environ os !! "PYTHON_VERSION", host_ip os,
          environ os !! "PROJECT_NAME" with
    | None, _, _ =>
        (get_context os s).1 = Raised (KeyError "PYTHON_VERSION")
    | Some _, Raised e, _ => (get_context os s).1 = Raised e
    | Some _, Diverges, _ => (get_context os s).1 = Diverges
    | Some _, Returned _, None =>
        (get_context os s).1 = Raised (KeyError "PROJECT_NAME")
    | Some _, Returned _, Some _ =>
        ∃ context, (get_context os s).1 = Returned context
    end.
Proof.
  split; [apply get_context_reads_only|].
  unfold get_context, environ_getitem, get_host_ip. py_unfold.
  destruct (environ os !! "PYTHON_VERSION") as [version|]; simpl; [|done].
  destruct (environ os !! "UWSGI_WORKERS") as [workers|];
    [destruct (py_int os workers)|]; simpl;
    (destruct (host_ip os) as [host|e|]; simpl; [|done|done]);
    destruct (environ os !! "PROJECT_NAME"); simpl; by eauto.
Qed.

(** X8: the values [get_context] falls back on.  With the two mandatory
    variables set and the host address found, the number of workers is 10
    when [UWSGI_WORKERS] is unset or is not a number and the number it
    holds otherwise; the uwsgi plugin is [python3] exactly when the part
    of the version before the first dot is [3]; the syslog host is
    [RSYSLOG_HOST] when set and the host address otherwise; the proxy
    variables default to the empty string. *)
Theorem get_context_fallbacks (os : OS) (s : state)
    (version project host : string) :
  environ os !! "PYTHON_VERSION" = Some version →
  environ os !! "PROJECT_NAME" = Some project →
  host_ip os = Returned host →
  ∃ context,
    get_context os s = (Returned context, s)
    ∧ context !! "uwsgi_workers"
      = Some (VInt (match environ os !! "UWSGI_WORKERS" with
                    | None => 10
                    | Some v => default 10 (py_int os v)
                    end))
    ∧ context !! "uwsgi_plugin_name"
      = Some (VStr (if String.eqb (before_dot version) "3"
                    then "python3" else "python"))
    ∧ context !! "rsyslog_host"
      = Some (VStr (default host (environ os !! "RSYSLOG_HOST")))
    ∧ context !! "project_name_upper" = Some (VStr (upper project))
    ∧ context !! "http_proxy"
      = Some (VStr (default "" (environ os !! "http_proxy")))
    ∧ context !! "service" = None.
Proof.
  intros Hversion Hproject Hhost.
  unfold get_context, environ_getitem, get_host_ip.
  py_unfold. rewrite Hversion. simpl.
  destruct (environ os !! "UWSGI_WORKERS") as [workers|];
    [destruct (py_int os workers)|]; simpl;
    rewrite Hhost, Hproject; simpl;
    (eexists; split; [reflexivity|]);
    (destruct (String.eqb_spec (before_dot version) "3") as [->|Hne];
     repeat split; reflexivity).
Qed.

Lemma get_context_fallbacks_witness :
  ∃ context,
    get_context sample_os_web sample_state = (Returned context, sample_state)
    ∧ context !! "uwsgi_workers"
      = Some (VInt (match environ sample_os_web !! "UWSGI_WORKERS" with
                    | None => 10
                    | Some v => default 10 (py_int sample_os_web v)
                    end))
    ∧ context !! "uwsgi_plugin_name"
      = Some (VStr (if String.eqb (before_dot "3.5") "3"
                    then "python3" else "python"))
    ∧ context !! "rsyslog_host"
      = Some (VStr (default "172.17.0.1" (environ sample_os_web !! "RSYSLOG_HOST")))
    ∧ context !! "project_name_upper" = Some (VStr (upper "shop"))
    ∧ context !! "http_proxy"
      = Some (VStr (default "" (environ sample_os_web !! "http_proxy")))
    ∧ context !! "service" = None.
Proof.
  apply (get_context_fallbacks sample_os_web sample_state "3.5" "shop"
           "172.17.0.1"); reflexivity.
Defined.


Lemma templatize_fails (os : OS) (filename destination_path : string)
    (context : gmap string pyval) (s : state) (e : exn) :
  render_error os (os_path_join TEMPLATE_PATH [filename]) = Some e →
  templatize os filename destination_path context s
  = (Raised e,
     emit (ETemplatize (os_path_join TEMPLATE_PATH [filename])
             (expanduser os destination_path) context) s).
Proof.
  intros Hfails. unfold templatize. py_unfold. by rewrite Hfails.
Qed.

(** X10: when one of the three templates fails to render, [start_service]
    raises the failure of the renderer and supervisord is not spawned: the
    calls made are the renderings up to the failing one and nothing
    else. *)
Theorem render_failure_stops_start_service (os : OS) (command service : string)
    (rest : list string) (context : gmap string pyval) (s : state) :
  get_context os s = (Returned context, s) →
  ¬ renders os →
  let r := start_service os command (service :: rest) s in
  ∃ (e : exn) (k : nat),
    r.1 = Raised e
    ∧ (1 ≤ k ≤ 3)%nat
    ∧ render_error os
        (os_path_join TEMPLATE_PATH
           [default "" (["uwsgi.ini"; "nginx.conf"; "supervisord.conf"]
                          !! (k - 1)%nat)])
      = Some e
    ∧ trace r.2
      = trace s
        ++ take k (service_starting os (<["service" := VStr service]> context)).
Proof.
  intros Hctx Hrenders r. subst r.
  unfold start_service, getitem. simpl lookup.
  unfold mbind, Py_bind, py_bind, mret, Py_ret, py_ret.
  rewrite Hctx.
  destruct (render_error os (os_path_join TEMPLATE_PATH ["uwsgi.ini"]))
    as [e|] eqn:Huwsgi.
  { exists e, 1%nat.
    rewrite (templatize_fails os "uwsgi.ini" _ _ _ _ Huwsgi).
    simpl. repeat split; try done; lia. }
  rewrite (templatize_renders os "uwsgi.ini" _ _ _ Huwsgi).
  destruct (render_error os (os_path_join TEMPLATE_PATH ["nginx.conf"]))
    as [e|] eqn:Hnginx.
  { exists e, 2%nat.
    rewrite (templatize_fails os "nginx.conf" _ _ _ _ Hnginx).
    simpl. repeat split; try done; try lia. by rewrite <- app_assoc. }
  rewrite (templatize_renders os "nginx.conf" _ _ _ Hnginx).
  destruct (render_error os (os_path_join TEMPLATE_PATH ["supervisord.conf"]))
    as [e|] eqn:Hsup.
  { exists e, 3%nat.
    rewrite (templatize_fails os "supervisord.conf" _ _ _ _ Hsup).
    simpl. repeat split; try done; try lia. by rewrite <- !app_assoc. }
  destruct Hrenders. done.
Qed.

(** A world in which the nginx template does not render. *)
Lemma render_failure_stops_start_service_witness :
  let os := MkOS (environ sample_os_web) (expanduser sample_os_web)
              (path_exists sample_os_web) (os_spawn sample_os_web)
              (child_exit sample_os_web)
              (fun template =>
                 if String.eqb template "/home/blue/templates/nginx.conf"
                 then Some (KeyError "upstream") else None)
              (host_ip sample_os_web) (py_int sample_os_web) in
  let r := start_service os "start" ["app"] sample_state in
  ∃ (e : exn) (k : nat),
    r.1 = Raised e
    ∧ (1 ≤ k ≤ 3)%nat
    ∧ render_error os
        (os_path_join TEMPLATE_PATH
           [default "" (["uwsgi.ini"; "nginx.conf"; "supervisord.conf"]
                          !! (k - 1)%nat)])
      = Some e
    ∧ trace r.2
      = trace sample_state
        ++ take k (service_starting os (<["service" := VStr "app"]> sample_context)).
Proof.
  intros os.
  apply (render_failure_stops_start_service os "start" "app" [] sample_context
           sample_state); [reflexivity|].
  intros (_ & Hnginx & _). vm_compute in Hnginx. discriminate.
Defined.

(** X11: [dispatch] does not look at what follows [cron], nor at what
    follows the service name after [start]: extra arguments change
    nothing. *)
Theorem dispatch_ignores_extra_arguments (os : OS) (service : string)
    (rest rest' : list string) :
  dispatch os ("cron" :: rest) = dispatch os ("cron" :: rest')
  ∧ dispatch os ("start" :: service :: rest)
    = dispatch os ("start" :: service :: rest').
Proof.
  rewrite !dispatch_selects. split; reflexivity.
Qed.

(** *** Versions and absolute commands *)

Lemma before_dot_empty (s : string) :
  before_dot s = "" ↔ s = "" ∨ ∃ fields, s = String "."%char fields.
Proof.
  destruct s as [|c s]; [by split; [left|]|].
  simpl. destruct (Ascii.eqb_spec c ".") as [->|Hc].
  - split; [right; by eexists|done].
  - split; [done|]. intros [|[fields [= -> _]]]; done.
Qed.

Lemma before_dot_is_3 (version : string) :
  before_dot version = "3"
  ↔ version = "3" ∨ ∃ fields, version = "3." +:+ fields.
Proof.
  destruct version as [|c version].
  - split; [done|]. by intros [|[fields ?]].
  - simpl. destruct (Ascii.eqb_spec c ".") as [->|Hc].
    + split; [done|]. by intros [|[fields ?]].
    + split.
      * intros [= -> Hrest]. apply before_dot_empty in Hrest as [->|[fields ->]];
          [by left|right; by exists fields].
      * intros [[= -> ->]|[fields [= -> ->]]]; [done|].
        simpl. done.
Qed.

(** X12: the uwsgi plugin of the context is [python3] exactly when
    [PYTHON_VERSION] is [3] or starts with [3.], and [python] otherwise:
    [3.10] is a version 3, [31] and [2.7] are not. *)
Theorem uwsgi_plugin_follows_major (os : OS) (s : state)
    (version project host : string) :
  environ os !! "PYTHON_VERSION" = Some version →
  environ os !! "PROJECT_NAME" = Some project →
  host_ip os = Returned host →
  ∃ context,
    get_context os s = (Returned context, s)
    ∧ (context !! "uwsgi_plugin_name" = Some (VStr "python3")
       ↔ version = "3" ∨ ∃ fields, version = "3." +:+ fields)
    ∧ (context !! "uwsgi_plugin_name" = Some (VStr "python3")
       ∨ context !! "uwsgi_plugin_name" = Some (VStr "python")).
Proof.
  intros Hversion Hproject Hhost.
  pose proof (before_dot_is_3 version) as Hmajor.
  unfold get_context, environ_getitem, get_host_ip.
  py_unfold. rewrite Hversion. simpl.
  destruct (environ os !! "UWSGI_WORKERS") as [workers|];
    [destruct (py_int os workers)|]; simpl;
    rewrite Hhost, Hproject; simpl;
    (eexists; split; [reflexivity|]);
    match goal with
    | |- context [?m !! "uwsgi_plugin_name"] =>
        assert (Hplugin : m !! "uwsgi_plugin_name"
                          = Some (VStr (if String.eqb (before_dot version) "3"
                                        then "python3" else "python")))
          by (destruct (String.eqb_spec (before_dot version) "3") as [->|];
              reflexivity);
        rewrite Hplugin
    end;
    (destruct (String.eqb_spec (before_dot version) "3") as [Heq|Hne];
     [split; [split; [intros _; by apply Hmajor|done]|by left]
     |split; [split; [intros [=]|intros H; by apply Hmajor in H]|by right]]).
Qed.

Lemma uwsgi_plugin_follows_major_witness :
  ∃ context,
    get_context sample_os_web sample_state = (Returned context, sample_state)
    ∧ (context !! "uwsgi_plugin_name" = Some (VStr "python3")
       ↔ "3.5" = "3" ∨ ∃ fields, "3.5" = "3." +:+ fields)
    ∧ (context !! "uwsgi_plugin_name" = Some (VStr "python3")
       ∨ context !! "uwsgi_plugin_name" = Some (VStr "python")).
Proof.
  apply (uwsgi_plugin_follows_major sample_os_web sample_state "3.5" "shop"
           "172.17.0.1"); reflexivity.
Defined.

Lemma absolute_is_resolved_as_given (os : OS) (arg0 : string)
    (rest : list string) :
  starts_with_slash arg0 = true → resolved os arg0 rest = arg0 :: rest.
Proof.
  intros Habs. unfold resolved, os_path_join. simpl.
  unfold join2. rewrite Habs. by destruct (path_exists os arg0).
Qed.

(** X13: a command given by an absolute path is spawned as it is given,
    whatever the scripts directory holds: for a vector whose first element
    starts with a slash [dispatch] logs and spawns that very vector, the
    scripts directory being the working directory only.  The default
    [/bin/bash] is such a vector. *)
Theorem absolute_command_is_spawned_as_given (os : OS) (arg0 : string)
    (rest : list string) (s : state) :
  starts_with_slash arg0 = true →
  ∃ more,
    trace (dispatch os (arg0 :: rest) s).2
    = trace s
      ++ [ELogInfo "running %s" [VStr (join_spaces (arg0 :: rest))];
          EPopen (arg0 :: rest) (MkKwargs (Some SCRIPT_DIR) None)]
      ++ more
    ∧ (more = [] ∨ ∃ child, more = [EPopenWait child]).
Proof.
  intros Habs. rewrite dispatch_selects.
  assert (Hcron : String.eqb arg0 "cron" = false)
    by (destruct arg0 as [|c arg0]; [done|];
        simpl in Habs; apply Ascii.eqb_eq in Habs as ->; done).
  assert (Hstart : String.eqb arg0 "start" = false)
    by (destruct arg0 as [|c arg0]; [done|];
        simpl in Habs; apply Ascii.eqb_eq in Habs as ->; done).
  rewrite Hcron, Hstart.
  destruct (run_shell_runs os arg0 rest s) as (s' & H & _).
  rewrite (absolute_is_resolved_as_given os arg0 rest Habs) in H.
  destruct (os_spawn os (arg0 :: rest)) as [child|];
    destruct H as [-> Htr]; simpl; rewrite Htr.
  - exists [EPopenWait child]. split; [done|]. right. by exists child.
  - exists []. split; [done|]. by left.
Qed.

Lemma absolute_command_is_spawned_as_given_witness :
  ∃ more,
    trace (dispatch sample_os ("/bin/bash" :: ["-l"]) sample_state).2
    = trace sample_state
      ++ [ELogInfo "running %s" [VStr (join_spaces ("/bin/bash" :: ["-l"]))];
          EPopen ("/bin/bash" :: ["-l"]) (MkKwargs (Some SCRIPT_DIR) None)]
      ++ more
    ∧ (more = [] ∨ ∃ child, more = [EPopenWait child]).
Proof.
  apply (absolute_command_is_spawned_as_given sample_os "/bin/bash" ["-l"]
           sample_state).
  reflexivity.
Defined.

(** ** [get_host_ip] *)

Lemma take_drop_while (p : ascii -> bool) (s : string) :
  s = take_while p s +:+ drop_while p s.
Proof.
  induction s as [|c s IH]; [done|].
  simpl. destruct (p c); [|done].
  change (String c s = String c (take_while p s +:+ drop_while p s)).
  by rewrite <- IH.
Qed.

Lemma take_while_all (p : ascii -> bool) (s : string) :
  all_chars p (take_while p s) = true.
Proof.
  induction s as [|c s IH]; [done|].
  simpl. destruct (p c) eqn:Hc; [|done]. simpl. by rewrite Hc.
Qed.

Lemma take_while_app (p : ascii -> bool) (s : string) (c : ascii) (rest : string) :
  all_chars p s = true → p c = false →
  take_while p (s +:+ String c rest) = s
  ∧ drop_while p (s +:+ String c rest) = String c rest.
Proof.
  intros Hs Hc. induction s as [|d s IH].
  - simpl. by rewrite Hc.
  - simpl in Hs. apply andb_true_iff in Hs as [Hd Hs].
    destruct (IH Hs) as [Htake Hdrop].
    change (String d s +:+ String c rest) with (String d (s +:+ String c rest)).
    simpl. by rewrite Hd, Htake, Hdrop.
Qed.

Lemma take_while_whole (p : ascii -> bool) (s : string) :
  all_chars p s = true → take_while p s = s ∧ drop_while p s = "".
Proof.
  induction s as [|d s IH]; [done|].
  simpl. intros Hs. apply andb_true_iff in Hs as [Hd Hs].
  destruct (IH Hs) as [Htake Hdrop]. by rewrite Hd, Htake, Hdrop.
Qed.

Lemma space_is_no_ip_char (c : ascii) :
  is_space c = true → is_ip_char c = false.
Proof.
  unfold is_space, is_ip_char. intros Hc.
  apply orb_true_iff in Hc as [Hc|Hc].
  - apply Nat.eqb_eq in Hc. by rewrite Hc.
  - apply andb_true_iff in Hc as [Hlo Hhi]. apply Nat.leb_le in Hlo, Hhi.
    apply orb_false_iff. split.
    + apply andb_false_iff. left. apply Nat.leb_gt. lia.
    + apply Nat.eqb_neq. lia.
Qed.

Lemma match_via_group (s group : string) :
  match_via s = Some group →
  group ≠ ""
  ∧ all_chars is_ip_char group = true
  ∧ ∃ w w' after,
      s = "via" +:+ String w (group +:+ String w' after)
      ∧ is_space w = true ∧ is_space w' = true.
Proof.
  unfold match_via.
  destruct s as [|c1 [|c2 [|c3 [|w rest]]]]; try done;
    try (by repeat case_match).
  intros Hmatch.
  destruct (Ascii.eqb_spec c1 "v") as [->|Hc1];
    [|by repeat (case_match; try done; simplify_eq)].
  destruct (Ascii.eqb_spec c2 "i") as [->|Hc2];
    [|by repeat (case_match; try done; simplify_eq)].
  destruct (Ascii.eqb_spec c3 "a") as [->|Hc3];
    [|by repeat (case_match; try done; simplify_eq)].
  destruct (is_space w) eqn:Hw; [|done].
  pose proof (take_drop_while is_ip_char rest) as Hsplit.
  pose proof (take_while_all is_ip_char rest) as Hall.
  destruct (take_while is_ip_char rest) as [|c taken] eqn:Htake; [done|].
  destruct (drop_while is_ip_char rest) as [|w' after] eqn:Hdrop; [done|].
  destruct (is_space w') eqn:Hw'; [|done].
  injection Hmatch as <-.
  split; [done|]. split; [done|].
  exists w, w', after. by rewrite Hsplit.
Qed.

Lemma search_via_found (output group : string) :
  search_via output = Some group →
  group ≠ ""
  ∧ all_chars is_ip_char group = true
  ∧ ∃ before w w' after,
      output = before +:+ "via" +:+ String w (group +:+ String w' after)
      ∧ is_space w = true ∧ is_space w' = true.
Proof.
  induction output as [|c output IH].
  - simpl. done.
  - intros Hsearch.
    change (search_via (String c output))
      with (match match_via (String c output) with
            | Some g => Some g
            | None => search_via output
            end) in Hsearch.
    destruct (match_via (String c output)) as [g|] eqn:Hmatch.
    + injection Hsearch as ->.
      destruct (match_via_group _ _ Hmatch)
        as (Hne & Hall & w & w' & after & Heq & Hw & Hw').
      split; [done|]. split; [done|].
      exists "", w, w', after. done.
    + destruct (IH Hsearch)
        as (Hne & Hall & before & w & w' & after & Heq & Hw & Hw').
      split; [done|]. split; [done|].
      exists (String c before), w, w', after. by rewrite Heq.
Qed.

(** X14: whenever [get_host_ip] returns, what it returns is a non-empty
    run of digits and dots that stands in the output of the command after
    the letters via and one white-space character and before another
    white-space character; nothing else about it is checked. *)
Theorem get_host_ip_returns_digits_and_dots (output ip : string) :
  get_host_ip_on (Returned output) = Returned ip →
  ip ≠ ""
  ∧ all_chars is_ip_char ip = true
  ∧ ∃ before w w' after,
      output = before +:+ "via" +:+ String w (ip +:+ String w' after)
      ∧ is_space w = true ∧ is_space w' = true.
Proof.
  unfold get_host_ip_on.
  destruct (search_via output) as [group|] eqn:Hsearch; [|done].
  intros [= <-]. by apply search_via_found.
Qed.

Lemma get_host_ip_returns_digits_and_dots_witness :
  "..." ≠ ""
  ∧ all_chars is_ip_char "..." = true
  ∧ ∃ before w w' after,
      "route via ... dev" = before +:+ "via" +:+ String w ("..." +:+ String w' after)
      ∧ is_space w = true ∧ is_space w' = true.
Proof.
  apply (get_host_ip_returns_digits_and_dots "route via ... dev" "...").
  reflexivity.
Defined.

Lemma match_via_no_v (c : ascii) (s : string) :
  is_not_v c = true → match_via (String c s) = None.
Proof.
  unfold is_not_v, match_via. intros Hc.
  destruct (Ascii.eqb_spec c "v") as [->|Hne]; [done|].
  by repeat (case_match; try done; simplify_eq).
Qed.

(** X15: on an output that has, after a part without the letter v, the
    letters via, a white-space character, a non-empty run of digits and
    dots and a white-space character, [get_host_ip] returns that run,
    whatever follows. *)
Theorem get_host_ip_finds_the_gateway (before ip after : string) (w w' : ascii) :
  all_chars is_not_v before = true →
  ip ≠ "" →
  all_chars is_ip_char ip = true →
  is_space w = true → is_space w' = true →
  get_host_ip_on
    (Returned (before +:+ "via" +:+ String w (ip +:+ String w' after)))
  = Returned ip.
Proof.
  intros Hbefore Hne Hip Hw Hw'. unfold get_host_ip_on.
  assert (Hsearch : search_via
                      (before +:+ "via" +:+ String w (ip +:+ String w' after))
                    = Some ip); [|by rewrite Hsearch].
  induction before as [|c before IH].
  - change ("" +:+ "via" +:+ String w (ip +:+ String w' after))
      with (String "v" (String "i" (String "a"
              (String w (ip +:+ String w' after))))).
    unfold search_via, match_via. rewrite Hw.
    destruct (take_while_app is_ip_char ip w' after Hip
                (space_is_no_ip_char w' Hw')) as [-> ->].
    rewrite Hw'. by destruct ip.
  - simpl in Hbefore. apply andb_true_iff in Hbefore as [Hc Hbefore].
    change (String c before +:+ "via" +:+ String w (ip +:+ String w' after))
      with (String c (before +:+ "via" +:+ String w (ip +:+ String w' after))).
    change (search_via (String c ?s))
      with (match match_via (String c s) with
            | Some g => Some g
            | None => search_via s
            end).
    rewrite (match_via_no_v c _ Hc). by apply IH.
Qed.

Lemma get_host_ip_finds_the_gateway_witness :
  get_host_ip_on
    (Returned ("default " +:+ "via" +:+ String " " ("172.17.0.1"
                 +:+ String " " ("dev eth0 " +:+ newline))))
  = Returned "172.17.0.1".
Proof.
  apply (get_host_ip_finds_the_gateway "default " "172.17.0.1"
           ("dev eth0 " +:+ newline) " " " "); [reflexivity| discriminate | reflexivity..].
Defined.

(** X16: on an output without the letter v, the empty output of a host
    without default route among them, [get_host_ip] raises
    [AttributeError]; and a failure of the command itself is the failure
    of [get_host_ip]. *)
Theorem get_host_ip_without_route (output : string) (e : exn) :
  all_chars is_not_v output = true →
  get_host_ip_on (Returned output) = Raised AttributeError
  ∧ get_host_ip_on (Raised e) = Raised e.
Proof.
  intros Hv. split; [|done]. unfold get_host_ip_on.
  assert (Hsearch : search_via output = None); [|by rewrite Hsearch].
  induction output as [|c output IH]; [done|].
  simpl in Hv. apply andb_true_iff in Hv as [Hc Hv].
  change (search_via (String c output))
    with (match match_via (String c output) with
          | Some g => Some g
          | None => search_via output
          end).
  rewrite (match_via_no_v c _ Hc). by apply IH.
Qed.

Lemma get_host_ip_without_route_witness :
  get_host_ip_on (Returned "") = Raised AttributeError
  ∧ get_host_ip_on (Raised (CalledProcessError 1)) = Raised (CalledProcessError 1).
Proof.
  apply (get_host_ip_without_route "" (CalledProcessError 1)). reflexivity.
Defined.

(** ** [setup_environment] *)

Lemma drop_while_head (p : ascii -> bool) (s : string) (c : ascii) (rest : string) :
  drop_while p s = String c rest → p c = false.
Proof.
  induction s as [|d s IH]; [done|].
  simpl. destruct (p d) eqn:Hd; [done|]. by intros [= <- _].
Qed.

Lemma not_newline_false (c : ascii) :
  is_not_newline c = false → String c "" = newline.
Proof.
  unfold is_not_newline, newline. intros Hc.
  apply negb_false_iff, Nat.eqb_eq in Hc.
  by rewrite <- Hc, ascii_nat_embedding.
Qed.

Lemma append_empty_r (s : string) : s +:+ "" = s.
Proof.
  induction s as [|c s IH]; [done|].
  change (String c (s +:+ "") = String c s). by rewrite IH.
Qed.

Lemma equals_is_no_key_char : is_key_char "=" = false.
Proof. reflexivity. Qed.

Lemma newline_is_newline : is_not_newline (ascii_of_nat 10) = false.
Proof. reflexivity. Qed.

Lemma match_env_line_accepts (key value : string) :
  all_chars is_key_char key = true →
  all_chars is_not_newline value = true →
  match_env_line (key +:+ "=" +:+ value) = Some (key, value)
  ∧ match_env_line (key +:+ "=" +:+ value +:+ newline) = Some (key, value).
Proof.
  intros Hkey Hvalue. unfold match_env_line. split.
  - destruct (take_while_app is_key_char key "=" value Hkey
                equals_is_no_key_char) as [Htake Hdrop].
    change (key +:+ "=" +:+ value) with (key +:+ String "=" value).
    rewrite Htake, Hdrop.
    destruct (take_while_whole is_not_newline value Hvalue) as [-> ->].
    done.
  - destruct (take_while_app is_key_char key "=" (value +:+ newline) Hkey
                equals_is_no_key_char) as [Htake Hdrop].
    change (key +:+ "=" +:+ value +:+ newline)
      with (key +:+ String "=" (value +:+ newline)).
    rewrite Htake, Hdrop. unfold newline.
    destruct (take_while_app is_not_newline value (ascii_of_nat 10) ""
                Hvalue newline_is_newline) as [-> ->].
    done.
Qed.

(** X17: a line is taken for an assignment exactly when it is a name made
    of letters, underscores and the digits 1 to 9, an equals sign, and a
    value without line feed, with or without a line feed at the end; the
    name and the value are then the two groups, the value kept as it is,
    with its spaces and with any further equals sign. *)
Theorem match_env_line_spec (line key value : string) :
  match_env_line line = Some (key, value)
  ↔ all_chars is_key_char key = true
    ∧ all_chars is_not_newline value = true
    ∧ (line = key +:+ "=" +:+ value
       ∨ line = key +:+ "=" +:+ value +:+ newline).
Proof.
  split.
  - unfold match_env_line. intros Hmatch.
    pose proof (take_drop_while is_key_char line) as Hline.
    pose proof (take_while_all is_key_char line) as Hkey.
    destruct (drop_while is_key_char line) as [|c rest] eqn:Hdrop; [done|].
    destruct (Ascii.eqb_spec c "=") as [->|Hc];
      [|by repeat (case_match; try done; simplify_eq)].
    pose proof (take_drop_while is_not_newline rest) as Hrest.
    pose proof (take_while_all is_not_newline rest) as Hvalue.
    destruct (drop_while is_not_newline rest) as [|d [|d' tail]] eqn:Hdrop';
      [| |done]; injection Hmatch as <- <-.
    + split; [done|]. split; [done|]. left.
      rewrite append_empty_r in Hrest.
      rewrite Hline at 1. by rewrite <- Hrest.
    + split; [done|]. split; [done|]. right.
      apply drop_while_head in Hdrop' as Hd.
      apply not_newline_false in Hd. rewrite Hd in Hrest.
      rewrite Hline at 1. by rewrite <- Hrest.
  - intros (Hkey & Hvalue & [->| ->]);
      by apply (match_env_line_accepts key value).
Qed.

Lemma match_env_line_spec_witness :
  match_env_line ("UWSGI_WORKERS= 4 =x" +:+ newline)
  = Some ("UWSGI_WORKERS", " 4 =x").
Proof.
  apply (proj2 (match_env_line_spec ("UWSGI_WORKERS= 4 =x" +:+ newline)
                  "UWSGI_WORKERS" " 4 =x")).
  split; [reflexivity|]. split; [reflexivity|]. right. reflexivity.
Defined.

Lemma rstrip_empty (s : string) :
  rstrip s = "" ↔ all_chars is_space s = true.
Proof.
  induction s as [|c s IH]; [done|].
  simpl. destruct (rstrip s) as [|d kept] eqn:Hs.
  - destruct (is_space c); simpl; [|split; done].
    split; [intros _; by apply IH|done].
  - split; [done|]. intros Hall. apply andb_true_iff in Hall as [_ Hall].
    by apply IH in Hall.
Qed.

Lemma strip_empty (s : string) :
  strip s = "" ↔ all_chars is_space s = true.
Proof.
  unfold strip, lstrip. rewrite rstrip_empty.
  induction s as [|c s IH]; [done|].
  simpl. destruct (is_space c) eqn:Hc; simpl; [done|].
  rewrite Hc. simpl. split; done.
Qed.

Lemma strip_not_blank (s : string) :
  all_chars is_space s = false → String.eqb (strip s) "" = false.
Proof.
  intros Hs. apply String.eqb_neq. intros Hstrip.
  apply strip_empty in Hstrip. congruence.
Qed.

Lemma all_chars_app (p : ascii -> bool) (a b : string) :
  all_chars p (a +:+ b) = all_chars p a && all_chars p b.
Proof.
  induction a as [|c a IH]; [done|].
  change (String c a +:+ b) with (String c (a +:+ b)).
  simpl. by rewrite IH, andb_assoc.
Qed.

(** X18: a line in which the name is followed by something else than the
    equals sign, such as a zero digit, a dash or a dot, exports nothing:
    the environment stays as it is and the line is logged as not being a
    variable.  So does [VAR10=x]. *)
Theorem odd_name_is_not_exported (name rest : string) (c : ascii)
    (env : gmap string string) (log : list string) :
  all_chars is_key_char name = true →
  is_key_char c = false → c ≠ "="%char → is_space c = false →
  export_lines [name +:+ String c rest] env log
  = (env, log ++ [not_a_variable (name +:+ String c rest)]).
Proof.
  intros Hname Hc Heq Hspace. simpl.
  rewrite strip_not_blank.
  2:{ rewrite all_chars_app. simpl. rewrite Hspace. simpl.
      by rewrite andb_false_r. }
  unfold match_env_line.
  destruct (take_while_app is_key_char name c rest Hname Hc) as [_ ->].
  destruct (Ascii.eqb_spec c "=") as [->|_]; [done|].
  by repeat (case_match; try done; simplify_eq).
Qed.

Lemma odd_name_is_not_exported_witness :
  export_lines ["VAR1" +:+ String "0" "=x"] ∅ []
  = (∅, [] ++ [not_a_variable ("VAR1" +:+ String "0" "=x")]).
Proof.
  apply (odd_name_is_not_exported "VAR1" "=x" "0" ∅ []);
    [reflexivity|reflexivity|discriminate|reflexivity].
Defined.

(** X19: a line of white space only is skipped without a word, and the
    lines of the file are taken in turn, so that reading two parts of a
    file one after the other is reading the whole. *)
Theorem blank_lines_are_skipped (blank : string) (before after : list string)
    (env : gmap string string) (log : list string) :
  all_chars is_space blank = true →
  export_lines (before ++ blank :: after) env log
  = export_lines (before ++ after) env log
  ∧ export_lines (before ++ after) env log
    = export_lines after (export_lines before env log).1
        (export_lines before env log).2.
Proof.
  intros Hblank. apply strip_empty in Hblank.
  assert (Happ : ∀ l1 l2 e g,
            export_lines (l1 ++ l2) e g
            = export_lines l2 (export_lines l1 e g).1 (export_lines l1 e g).2).
  { induction l1 as [|line l1 IH]; intros l2 e g; [done|].
    simpl. destruct (String.eqb (strip line) ""); [apply IH|].
    destruct (match_env_line line) as [[key value]|]; apply IH. }
  split; [|apply Happ].
  rewrite !Happ. simpl. by rewrite Hblank.
Qed.

Lemma blank_lines_are_skipped_witness :
  export_lines (["A=1" +:+ newline] ++ ("  " +:+ newline) :: ["B=2" +:+ newline])
    ∅ []
  = export_lines (["A=1" +:+ newline] ++ ["B=2" +:+ newline]) ∅ []
  ∧ export_lines (["A=1" +:+ newline] ++ ["B=2" +:+ newline]) ∅ []
    = export_lines ["B=2" +:+ newline]
        (export_lines ["A=1" +:+ newline] ∅ []).1
        (export_lines ["A=1" +:+ newline] ∅ []).2.
Proof.
  apply (blank_lines_are_skipped ("  " +:+ newline) ["A=1" +:+ newline]
           ["B=2" +:+ newline] ∅ []).
  reflexivity.
Defined.




Lemma last_char_app (a b : string) (c : ascii) :
  last_char b = Some c → last_char (a +:+ b) = Some c.
Proof.
  intros Hb. induction a as [|d a IH]; [done|].
  change (String d a +:+ b) with (String d (a +:+ b)).
  destruct (a +:+ b) as [|e rest]; [done|]. exact IH.
Qed.

Lemma config_key_is_fresh (project other : string) (c : ascii) :
  last_char other = Some c → c ≠ "G"%char →
  upper project +:+ "_CONFIG" ≠ other.
Proof.
  intros Hother Hc Heq.
  pose proof (last_char_app (upper project) "_CONFIG" "G" eq_refl) as Hlast.
  rewrite Heq in Hlast. congruence.
Qed.


(** ** [create_directory], [setup_ssh] and [setup_app] *)

Lemma follows_ret : follows (mret tt) [].
Proof.
  intros calls. exists []. simpl. rewrite app_nil_r.
  repeat split; done.
Qed.

Lemma follows_do (fs : FS) (c : fs_call) : follows (fs_do fs c) [c].
Proof.
  intros calls. exists [c]. unfold fs_do.
  destruct (fs_error fs c); simpl; repeat split; done.
Qed.

Lemma follows_seq (m n : Setup unit) (e1 e2 : list fs_call) :
  follows m e1 → follows n e2 → follows (m;; n) (e1 ++ e2).
Proof.
  intros Hm Hn calls.
  destruct (Hm calls) as (made1 & Hcalls1 & Hprefix1 & Hfull1 & Hdiv1).
  unfold mbind, Setup_bind, setup_bind.
  destruct (m calls) as [[[]|e|] calls1]; simpl in *; [| |done].
  - specialize (Hfull1 eq_refl) as ->.
    destruct (Hn calls1) as (made2 & Hcalls2 & Hprefix2 & Hfull2 & Hdiv2).
    exists (e1 ++ made2). subst calls1.
    split; [by rewrite Hcalls2, app_assoc|].
    split; [by apply prefix_app|].
    split; [|done]. intros Hret. by rewrite (Hfull2 Hret).
  - exists made1. split; [done|].
    split; [by apply prefix_app_r|]. split; done.
Qed.

Lemma follows_exists (fs : FS) (path : string) (k : bool -> Setup unit)
    (expected : list fs_call) :
  follows (k (fs_exists fs path)) expected →
  follows (found ← os_path_exists fs path; k found) (FsExists path :: expected).
Proof.
  intros Hk calls.
  destruct (Hk (calls ++ [FsExists path]))
    as (made & Hcalls & Hprefix & Hfull & Hdiv).
  exists (FsExists path :: made).
  unfold mbind, Setup_bind, setup_bind, os_path_exists. simpl.
  split; [by rewrite Hcalls, <- app_assoc|].
  split; [by apply (prefix_app [FsExists path])|].
  split; [|done]. intros Hret. by rewrite (Hfull Hret).
Qed.

Lemma follows_isfile (fs : FS) (path : string) (k : bool -> Setup unit)
    (expected : list fs_call) :
  follows (k (fs_isfile fs path)) expected →
  follows (regular ← os_path_isfile fs path; k regular)
          (FsIsfile path :: expected).
Proof.
  intros Hk calls.
  destruct (Hk (calls ++ [FsIsfile path]))
    as (made & Hcalls & Hprefix & Hfull & Hdiv).
  exists (FsIsfile path :: made).
  unfold mbind, Setup_bind, setup_bind, os_path_isfile. simpl.
  split; [by rewrite Hcalls, <- app_assoc|].
  split; [by apply (prefix_app [FsIsfile path])|].
  split; [|done]. intros Hret. by rewrite (Hfull Hret).
Qed.

Lemma follows_listdir (fs : FS) (path : string)
    (k : list string -> Setup unit) (expected : list fs_call) :
  follows (k (fs_listdir fs path)) expected →
  follows (names ← os_listdir fs path; k names) (FsListdir path :: expected).
Proof.
  intros Hk calls.
  unfold mbind, Setup_bind, setup_bind, os_listdir.
  destruct (fs_error fs (FsListdir path)) as [e|]; simpl.
  - exists [FsListdir path]. split; [done|].
    split; [by apply (prefix_app_r _ [FsListdir path])|]. split; done.
  - destruct (Hk (calls ++ [FsListdir path]))
      as (made & Hcalls & Hprefix & Hfull & Hdiv).
    exists (FsListdir path :: made).
    split; [by rewrite Hcalls, <- app_assoc|].
    split; [by apply (prefix_app [FsListdir path])|].
    split; [|done]. intros Hret. by rewrite (Hfull Hret).
Qed.

Lemma follows_for_each {A} (xs : list A) (body : A -> Setup unit)
    (expected : A -> list fs_call) :
  (∀ x, follows (body x) (expected x)) →
  follows (for_each xs body) (flat_map expected xs).
Proof.
  intros Hbody. induction xs as [|x xs IH]; [apply follows_ret|].
  simpl. by apply follows_seq.
Qed.

Lemma follows_create_directory (fs : FS) (path : string) :
  follows (create_directory fs path) (create_calls fs path).
Proof.
  unfold create_directory, create_calls.
  apply follows_exists. destruct (fs_exists fs path); apply follows_do.
Qed.

Lemma follows_setup_ssh (fs : FS) : follows (setup_ssh fs) (ssh_calls fs).
Proof.
  unfold setup_ssh, ssh_calls.
  apply follows_seq; [apply follows_create_directory|].
  apply (follows_seq _ _ [_]); [apply follows_do|].
  apply follows_exists.
  destruct (fs_exists fs _); [|apply follows_ret].
  apply follows_listdir. apply follows_for_each. intros name.
  apply follows_isfile.
  destruct (fs_isfile fs _); [|apply follows_ret].
  apply (follows_seq _ _ [_] [_]); apply follows_do.
Qed.

Lemma returns_ret : returns (mret tt).
Proof. by intros calls. Qed.

Lemma returns_do (fs : FS) (c : fs_call) : reliable fs → returns (fs_do fs c).
Proof. intros Hfs calls. unfold fs_do. by rewrite (Hfs c). Qed.

Lemma returns_seq (m n : Setup unit) :
  returns m → returns n → returns (m;; n).
Proof.
  intros Hm Hn calls. unfold mbind, Setup_bind, setup_bind.
  specialize (Hm calls). destruct (m calls) as [[[]|e|] calls1]; [|done|done].
  simpl. apply Hn.
Qed.

Lemma returns_exists (fs : FS) (path : string) (k : bool -> Setup unit) :
  returns (k (fs_exists fs path)) →
  returns (found ← os_path_exists fs path; k found).
Proof. intros Hk calls. apply Hk. Qed.

Lemma returns_isfile (fs : FS) (path : string) (k : bool -> Setup unit) :
  returns (k (fs_isfile fs path)) →
  returns (regular ← os_path_isfile fs path; k regular).
Proof. intros Hk calls. apply Hk. Qed.

Lemma returns_listdir (fs : FS) (path : string) (k : list string -> Setup unit) :
  reliable fs →
  returns (k (fs_listdir fs path)) →
  returns (names ← os_listdir fs path; k names).
Proof.
  intros Hfs Hk calls. unfold mbind, Setup_bind, setup_bind, os_listdir.
  rewrite (Hfs (FsListdir path)). apply Hk.
Qed.

Lemma returns_for_each {A} (xs : list A) (body : A -> Setup unit) :
  (∀ x, returns (body x)) → returns (for_each xs body).
Proof.
  intros Hbody. induction xs as [|x xs IH]; [apply returns_ret|].
  simpl. by apply returns_seq.
Qed.

Lemma returns_create_directory (fs : FS) (path : string) :
  reliable fs → returns (create_directory fs path).
Proof.
  intros Hfs. unfold create_directory. apply returns_exists.
  destruct (fs_exists fs path); by apply returns_do.
Qed.

Lemma returns_setup_ssh (fs : FS) : reliable fs → returns (setup_ssh fs).
Proof.
  intros Hfs. unfold setup_ssh.
  apply returns_seq; [by apply returns_create_directory|].
  apply returns_seq; [by apply returns_do|].
  apply returns_exists.
  destruct (fs_exists fs _); [|apply returns_ret].
  apply returns_listdir; [done|]. apply returns_for_each. intros name.
  apply returns_isfile.
  destruct (fs_isfile fs _); [|apply returns_ret].
  apply returns_seq; by apply returns_do.
Qed.

Lemma follows_from_start (m : Setup unit) (expected : list fs_call) :
  follows m expected →
  (m []).2 `prefix_of` expected
  ∧ ((m []).1 = Returned tt → (m []).2 = expected)
  ∧ (m []).1 ≠ Diverges.
Proof.
  intros Hm. destruct (Hm []) as (made & Hcalls & Hprefix & Hfull & Hdiv).
  simpl in Hcalls. rewrite Hcalls. done.
Qed.

(** X22: the calls of [setup_ssh], in every file system: the test for the
    [.ssh] directory of the home, its creation or else a log line, its
    [chmod] to 0700, the test for the mounted directory and, when that is
    there, its listing and for each name the test for a regular file
    followed, for a regular file, by the copy and the [chmod] of the copy
    to 0600.  A call that fails ends the run at that call with its
    exception; no call is ever made out of this order, and when no call
    fails [setup_ssh] returns. *)
Theorem setup_ssh_calls (fs : FS) :
  let r := setup_ssh fs [] in
  r.2 `prefix_of` ssh_calls fs
  ∧ (r.1 = Returned tt → r.2 = ssh_calls fs)
  ∧ (reliable fs → r = (Returned tt, ssh_calls fs)).
Proof.
  intros r. subst r.
  destruct (follows_from_start _ _ (follows_setup_ssh fs))
    as (Hprefix & Hfull & _).
  split; [done|]. split; [done|].
  intros Hfs. pose proof (returns_setup_ssh fs Hfs []) as Hret.
  specialize (Hfull Hret).
  destruct (setup_ssh fs []) as [r calls]. simpl in *. by subst.
Qed.

Lemma setup_ssh_calls_witness :
  setup_ssh sample_fs []
  = (Returned tt,
     [FsExists "/home/blue/.ssh"; FsMakedirs "/home/blue/.ssh";
      FsChmod "/home/blue/.ssh" 448; FsExists "/config/ssh-dir";
      FsListdir "/config/ssh-dir"; FsIsfile "/config/ssh-dir/id_rsa";
      FsCopy "/config/ssh-dir/id_rsa" "/home/blue/.ssh/id_rsa";
      FsChmod "/home/blue/.ssh/id_rsa" 384;
      FsIsfile "/config/ssh-dir/sub";
      FsIsfile "/config/ssh-dir/known_hosts";
      FsCopy "/config/ssh-dir/known_hosts" "/home/blue/.ssh/known_hosts";
      FsChmod "/home/blue/.ssh/known_hosts" 384]).
Proof.
  apply (proj2 (proj2 (setup_ssh_calls sample_fs))).
  intros c. reflexivity.
Defined.

Lemma chmod_after_copy_loop (src dst : string -> string)
    (regular : string -> bool) (names : list string) :
  chmod_after_copy
    (flat_map (fun name =>
       FsIsfile (src name)
       :: (if regular name
           then [FsCopy (src name) (dst name); FsChmod (dst name) 384]
           else [])) names) = true.
Proof.
  induction names as [|name names IH]; [done|].
  cbn [flat_map]. destruct (regular name); simpl; [|done].
  by rewrite String.eqb_refl, IH.
Qed.

Lemma chmod_after_copy_ssh_calls (fs : FS) :
  chmod_after_copy (ssh_calls fs) = true.
Proof.
  unfold ssh_calls, create_calls.
  destruct (fs_exists fs (os_path_join BLUE_HOME [".ssh"]));
    (destruct (fs_exists fs (os_path_join CONFIG_MOUNT_POINT [SSH_CONFIG_DIR]));
     [|done]);
    exact (chmod_after_copy_loop
             (fun name => os_path_join
                            (os_path_join CONFIG_MOUNT_POINT [SSH_CONFIG_DIR]) [name])
             (fun name => os_path_join (os_path_join BLUE_HOME [".ssh"]) [name])
             (fun name => fs_isfile fs
                            (os_path_join
                               (os_path_join CONFIG_MOUNT_POINT [SSH_CONFIG_DIR])
                               [name]))
             (fs_listdir fs (os_path_join CONFIG_MOUNT_POINT [SSH_CONFIG_DIR]))).
Qed.

Lemma copies_of_ssh_calls (fs : FS) (src dst : string) :
  In (FsCopy src dst) (ssh_calls fs) →
  fs_isfile fs src = true
  ∧ ∃ name,
      In name (fs_listdir fs (os_path_join CONFIG_MOUNT_POINT [SSH_CONFIG_DIR]))
      ∧ src = os_path_join (os_path_join CONFIG_MOUNT_POINT [SSH_CONFIG_DIR]) [name]
      ∧ dst = os_path_join (os_path_join BLUE_HOME [".ssh"]) [name].
Proof.
  unfold ssh_calls, create_calls. intros Hin.
  apply in_app_or in Hin as [Hin|Hin].
  { destruct (fs_exists fs _); simpl in Hin; by intuition. }
  apply in_app_or in Hin as [Hin|Hin]; [simpl in Hin; by intuition|].
  destruct (fs_exists fs _); [|done].
  destruct Hin as [Hin|Hin]; [done|].
  apply in_flat_map in Hin as (name & Hname & Hin).
  destruct Hin as [Hin|Hin]; [done|].
  destruct (fs_isfile fs _) eqn:Hregular; [|done].
  destruct Hin as [[= <- <-]|[Hin|[]]]; [|done].
  split; [done|]. by exists name.
Qed.

(** X23: [setup_ssh] copies nothing but regular files listed in the
    mounted directory, each one to the [.ssh] directory of the home under
    its own name; and in a run that returns every copy is followed at once
    by the [chmod] of the copy to 0600. *)
Theorem copied_keys_are_protected (fs : FS) :
  ((setup_ssh fs []).1 = Returned tt →
   chmod_after_copy (setup_ssh fs []).2 = true)
  ∧ ∀ src dst,
      In (FsCopy src dst) (setup_ssh fs []).2 →
      fs_isfile fs src = true
      ∧ ∃ name,
          In name (fs_listdir fs (os_path_join CONFIG_MOUNT_POINT [SSH_CONFIG_DIR]))
          ∧ src = os_path_join (os_path_join CONFIG_MOUNT_POINT [SSH_CONFIG_DIR]) [name]
          ∧ dst = os_path_join (os_path_join BLUE_HOME [".ssh"]) [name].
Proof.
  destruct (follows_from_start _ _ (follows_setup_ssh fs))
    as ([rest Hprefix] & Hfull & _).
  split.
  - intros Hret. rewrite (Hfull Hret). apply chmod_after_copy_ssh_calls.
  - intros src dst Hin. apply copies_of_ssh_calls.
    rewrite Hprefix. apply in_or_app. by left.
Qed.

Lemma copied_keys_are_protected_witness :
  chmod_after_copy (setup_ssh sample_fs []).2 = true
  ∧ fs_isfile sample_fs "/config/ssh-dir/id_rsa" = true.
Proof.
  split.
  - apply (proj1 (copied_keys_are_protected sample_fs)). reflexivity.
  - apply (proj2 (copied_keys_are_protected sample_fs)
             "/config/ssh-dir/id_rsa" "/home/blue/.ssh/id_rsa").
    vm_compute. tauto.
Defined.

Lemma follows_given {A} (a : A) (k : A -> Setup unit)
    (expected : list fs_call) :
  follows (k a) expected →
  follows (x ← (fun calls => (Returned a, calls)); k x) expected.
Proof. intros Hk calls. exact (Hk calls). Qed.

Lemma returns_given {A} (a : A) (k : A -> Setup unit) :
  returns (k a) → returns (x ← (fun calls => (Returned a, calls)); k x).
Proof. intros Hk calls. exact (Hk calls). Qed.

Lemma flat_map_one {A B} (f : A -> B) (xs : list A) :
  flat_map (fun x => [f x]) xs = map f xs.
Proof. induction xs as [|x xs IH]; [done|]. simpl. by rewrite IH. Qed.

Lemma follows_setup_app (fs : FS) (context : gmap string pyval) :
  follows (setup_app fs (Returned context)) (app_calls fs context).
Proof.
  unfold setup_app, app_calls.
  apply follows_seq;
    [apply follows_for_each; intros path; apply follows_create_directory|].
  apply follows_given.
  apply (follows_seq _ _ [_]); [apply follows_do|].
  apply follows_exists.
  destruct (fs_exists fs _); [|apply follows_do].
  apply follows_listdir. rewrite <- flat_map_one.
  apply follows_for_each. intros filename. apply follows_do.
Qed.

Lemma returns_setup_app (fs : FS) (context : gmap string pyval) :
  reliable fs → returns (setup_app fs (Returned context)).
Proof.
  intros Hfs. unfold setup_app.
  apply returns_seq;
    [apply returns_for_each; intros path; by apply returns_create_directory|].
  apply returns_given.
  apply returns_seq; [by apply returns_do|].
  apply returns_exists.
  destruct (fs_exists fs _); [|by apply returns_do].
  apply returns_listdir; [done|].
  apply returns_for_each. intros filename. by apply returns_do.
Qed.

(** X24: the calls of [setup_app] once the context is there, in every
    file system: for the settings, log and run directories in turn the
    test and then the creation or a log line; the rendering of the base
    settings; the test for the mounted [app] directory; then a warning
    when it is missing, and otherwise its listing and one copy per name,
    in the order of the listing, into the settings directory.  A call
    that fails ends the run at that call, and when no call fails
    [setup_app] returns; a missing mounted directory is no failure. *)
Theorem setup_app_calls (fs : FS) (context : gmap string pyval) :
  let r := setup_app fs (Returned context) [] in
  r.2 `prefix_of` app_calls fs context
  ∧ (r.1 = Returned tt → r.2 = app_calls fs context)
  ∧ (reliable fs → r = (Returned tt, app_calls fs context)).
Proof.
  intros r. subst r.
  destruct (follows_from_start _ _ (follows_setup_app fs context))
    as (Hprefix & Hfull & _).
  split; [done|]. split; [done|].
  intros Hfs. pose proof (returns_setup_app fs context Hfs []) as Hret.
  specialize (Hfull Hret).
  destruct (setup_app fs (Returned context) []) as [r calls].
  simpl in *. by subst.
Qed.

Lemma setup_app_calls_witness :
  setup_app sample_fs (Returned sample_context) []
  = (Returned tt,
     [FsExists "/home/blue/app_config"; FsMakedirs "/home/blue/app_config";
      FsExists "/home/blue/logs"; FsMakedirs "/home/blue/logs";
      FsExists "/home/blue/run"; FsMakedirs "/home/blue/run";
      FsTemplatize "settings.ini" "/home/blue/app_config/50_base_settings.ini"
        sample_context;
      FsExists "/config/app"; FsListdir "/config/app";
      FsCopy "/config/app/10_site.ini" "/home/blue/app_config/10_site.ini";
      FsCopy "/config/app/50_base_settings.ini"
             "/home/blue/app_config/50_base_settings.ini"]).
Proof.
  apply (proj2 (proj2 (setup_app_calls sample_fs sample_context))).
  intros c. reflexivity.
Defined.

(** X25: when [get_context] fails, [setup_app] has created the three
    directories and raises that failure: nothing has been rendered,
    nothing has been looked up in the mounted configuration and nothing
    has been copied. *)
Theorem setup_app_without_context (fs : FS) (e : exn) :
  let r := setup_app fs (Raised e) [] in
  r.2 `prefix_of` flat_map (create_calls fs)
                    [DJANGO_SETTINGS_PATH; LOG_DIR; RUN_DIR]
  ∧ r.1 ≠ Returned tt
  ∧ (reliable fs →
     r = (Raised e,
          flat_map (create_calls fs) [DJANGO_SETTINGS_PATH; LOG_DIR; RUN_DIR])).
Proof.
  intros r. subst r.
  set (dirs := for_each [DJANGO_SETTINGS_PATH; LOG_DIR; RUN_DIR]
                 (create_directory fs)).
  assert (Hrun : setup_app fs (Raised e) []
                 = match dirs [] with
                   | (Returned _, calls) => (Raised e, calls)
                   | (Raised e', calls) => (Raised e', calls)
                   | (Diverges, calls) => (Diverges, calls)
                   end) by reflexivity.
  rewrite Hrun. clear Hrun.
  assert (Hdirs : follows dirs (flat_map (create_calls fs)
                                  [DJANGO_SETTINGS_PATH; LOG_DIR; RUN_DIR]))
    by (apply follows_for_each; intros path; apply follows_create_directory).
  destruct (follows_from_start _ _ Hdirs) as (Hprefix & Hfull & Hdiv).
  assert (Hreturns : reliable fs → returns dirs)
    by (intros Hfs; apply returns_for_each; intros path;
        by apply returns_create_directory).
  destruct (dirs []) as [[[]|e'|] calls] eqn:Hrun; cbn [fst snd] in *.
  - rewrite (Hfull eq_refl).
    split; [exists []; by rewrite app_nil_r|]. split; [done|]. done.
  - split; [done|]. split; [done|].
    intros Hfs. specialize (Hreturns Hfs []). by rewrite Hrun in Hreturns.
  - done.
Qed.

(** X26: the mounted files are copied after the base settings have been
    rendered, and each under its own name: in a run of [setup_app] that
    returns, a mounted file called [50_base_settings.ini] is copied onto
    the file that was rendered before. *)
Theorem mounted_base_settings_replace_rendered (fs : FS)
    (context : gmap string pyval) :
  (setup_app fs (Returned context) []).1 = Returned tt →
  fs_exists fs (os_path_join CONFIG_MOUNT_POINT ["app"]) = true →
  In "50_base_settings.ini"
     (fs_listdir fs (os_path_join CONFIG_MOUNT_POINT ["app"])) →
  ∃ before between after,
    (setup_app fs (Returned context) []).2
    = before
      ++ FsTemplatize "settings.ini"
           "/home/blue/app_config/50_base_settings.ini" context
         :: between
      ++ FsCopy "/config/app/50_base_settings.ini"
                "/home/blue/app_config/50_base_settings.ini"
         :: after.
Proof.
  intros Hret Hexists Hin.
  destruct (follows_from_start _ _ (follows_setup_app fs context))
    as (_ & Hfull & _).
  rewrite (Hfull Hret). unfold app_calls. rewrite Hexists.
  apply in_split in Hin as (l1 & l2 & ->).
  rewrite map_app. simpl map.
  exists (flat_map (create_calls fs) [DJANGO_SETTINGS_PATH; LOG_DIR; RUN_DIR]),
    (FsExists (os_path_join CONFIG_MOUNT_POINT ["app"])
     :: FsListdir (os_path_join CONFIG_MOUNT_POINT ["app"])
     :: map (fun filename =>
               FsCopy (os_path_join (os_path_join CONFIG_MOUNT_POINT ["app"])
                         [filename])
                      (os_path_join DJANGO_SETTINGS_PATH [filename])) l1),
    (map (fun filename =>
            FsCopy (os_path_join (os_path_join CONFIG_MOUNT_POINT ["app"])
                      [filename])
                   (os_path_join DJANGO_SETTINGS_PATH [filename])) l2).
  reflexivity.
Qed.

Lemma mounted_base_settings_replace_rendered_witness :
  ∃ before between after,
    (setup_app sample_fs (Returned sample_context) []).2
    = before
      ++ FsTemplatize "settings.ini"
           "/home/blue/app_config/50_base_settings.ini" sample_context
         :: between
      ++ FsCopy "/config/app/50_base_settings.ini"
                "/home/blue/app_config/50_base_settings.ini"
         :: after.
Proof.
  apply (mounted_base_settings_replace_rendered sample_fs sample_context);
    [reflexivity|reflexivity|vm_compute; tauto].
Defined.

(** ** [setup_environment] before [get_context] *)

(** X27: [main] runs [setup_environment] before anything asks for the
    context.  Once it has returned, the project name is in the
    environment, so that with that environment [get_context] cannot fail
    for the project name: given the Python version and the host address
    it returns, and the project name of the context is the one
    [DJANGO_SETTINGS_MODULE] was made from. *)
Theorem environment_feeds_context (lines : list string)
    (env final : gmap string string) (log : list string) (os : OS)
    (s : state) (version host : string) :
  setup_environment lines env = (Returned tt, (final, log)) →
  environ os = final →
  final !! "PYTHON_VERSION" = Some version →
  host_ip os = Returned host →
  ∃ context project,
    get_context os s = (Returned context, s)
    ∧ context !! "project_name" = Some (VStr project)
    ∧ final !! "DJANGO_SETTINGS_MODULE" = Some (project +:+ ".settings").
Proof.
  intros Hsetup Henv Hversion Hhost.
  unfold setup_environment in Hsetup.
  destruct (export_lines lines env []) as [read log'].
  destruct (read !! "PATH") as [path|]; [|done].
  destruct (read !! "PROJECT_NAME") as [project|] eqn:Hread; [|done].
  injection Hsetup as <- <-.
  assert (Hfresh : ∀ other c, last_char other = Some c → c ≠ "G"%char →
                     upper project +:+ "_CONFIG" ≠ other)
    by (intros other c; apply config_key_is_fresh).
  assert (Hproject : environ os !! "PROJECT_NAME" = Some project).
  { rewrite Henv.
    rewrite lookup_insert_ne by (by apply (Hfresh _ "E"%char)).
    by rewrite !lookup_insert_ne. }
  rewrite <- Henv in Hversion.
  destruct (get_context_returns os s version project host Hversion Hproject Hhost)
    as (context & Hctx & Hname & _).
  exists context, project. split; [done|]. split; [done|].
  rewrite lookup_insert_ne by (by apply (Hfresh _ "E"%char)).
  by rewrite lookup_insert_eq.
Qed.

Lemma environment_feeds_context_witness :
  let run := setup_environment
               ["PYTHON_VERSION=3.5" +:+ newline; "PROJECT_NAME=shop" +:+ newline]
               {[ "PATH" := "/usr/bin" ]} in
  let os := MkOS run.2.1 (fun p => p) (fun _ => false) (fun _ => Some 42)
              (fun _ => Some 0) (fun _ => None) (Returned "172.17.0.1")
              (fun _ => None) in
  ∃ context project,
    get_context os sample_state = (Returned context, sample_state)
    ∧ context !! "project_name" = Some (VStr project)
    ∧ run.2.1 !! "DJANGO_SETTINGS_MODULE" = Some (project +:+ ".settings").
Proof.
  intros run os.
  apply (environment_feeds_context
           ["PYTHON_VERSION=3.5" +:+ newline; "PROJECT_NAME=shop" +:+ newline]
           {[ "PATH" := "/usr/bin" ]} run.2.1 run.2.2 os sample_state
           "3.5" "172.17.0.1");
    [vm_compute; reflexivity|reflexivity|vm_compute; reflexivity|reflexivity].
Defined.
